(** * logging-in-action: the CSV missing-value pipeline

    A shallow embedding of [process_csv] as it is written in
    [csv_log_processor.py] and in [logcsvfile.py], together with the parts
    of pandas and of the [logging] module that the two functions call, and
    the properties of the pipeline stated over that embedding.  The
    generator [create_dummy_csv], the entry code of the two scripts and
    the Flask views of [log.py] and [logging_endpoints.py] follow. *)

From Stdlib Require Import String Ascii List Bool Arith ZArith Lia.
From Stdlib Require Import Floats.SpecFloat.
From Stdlib Require Import Decimal DecimalString DecimalPos DecimalN DecimalNat.
Import ListNotations.
Open Scope string_scope.
Open Scope list_scope.

(* ===================================================================== *)
(** ** Python values and exceptions *)
(* ===================================================================== *)

(** The objects that occur as cells of a DataFrame, and as the value a
    function returns.  A float is an IEEE-754 binary64 value. *)
Inductive pyobj : Type :=
| PyNone
| PyBool (b : bool)
| PyInt (z : Z)
| PyFloat (f : spec_float)
| PyStr (s : string).

(** [np.nan], the value pandas stores in a cell that has no data. *)
Definition NaN : pyobj := PyFloat S754_nan.

(** An instance of [Exception]: its class name and its [str(e)].  Every
    fault below is such an instance ([FileNotFoundError], [ParserError],
    [MemoryError], ...), which is what [except Exception] catches;
    [KeyboardInterrupt] and [SystemExit] are not faults of the pipeline and
    are left out. *)
Record exn : Type := Exception { exc_type : string; exc_str : string }.

(** [str(n)] and ["%d" % n] for a count. *)
Definition str_of_nat (n : nat) : string :=
  NilEmpty.string_of_uint (Nat.to_uint n).

(** ["%.2f" % f] and [f"{f:.2f}"]: the exact value of the float rounded to
    hundredths, ties to even. *)
Definition round_half_even (n d : Z) : Z :=
  let q := (n / d)%Z in
  let r := (n mod d)%Z in
  if (2 * r <? d)%Z then q
  else if (d <? 2 * r)%Z then (q + 1)%Z
  else if Z.even q then q else (q + 1)%Z.

Definition hundredths (m : positive) (e : Z) : Z :=
  if (0 <=? e)%Z then (Zpos m * 100 * 2 ^ e)%Z
  else round_half_even (Zpos m * 100) (2 ^ (- e)).

Definition digits (n : Z) : string :=
  NilEmpty.string_of_uint (N.to_uint (Z.to_N n)).

Definition two_digits (n : Z) : string :=
  if (n <? 10)%Z then "0" ++ digits n else digits n.

Definition format_2f (f : spec_float) : string :=
  match f with
  | S754_nan => "nan"
  | S754_infinity s => if s then "-inf" else "inf"
  | S754_zero s => if s then "-0.00" else "0.00"
  | S754_finite s m e =>
      let n := hundredths m e in
      (if s then "-" else "") ++ digits (n / 100) ++ "."
      ++ two_digits (n mod 100)
  end.

(* ===================================================================== *)
(** ** pandas: DataFrame, [isnull], [sum], [fillna] *)
(* ===================================================================== *)

Module Pandas.

Abbreviation cell := pyobj (only parsing).

(** [pd.isna] on a scalar: [None] and NaN are missing, everything else
    (the empty string and zero included) is data. *)
Definition isna (c : cell) : bool :=
  match c with
  | PyNone => true
  | PyFloat S754_nan => true
  | _ => false
  end.

(** A DataFrame is held column by column: the labels in column order, each
    with its values in row order (the row index is the default
    [RangeIndex], positions [0 .. nrows-1]). *)
Abbreviation column A := (string * list A)%type (only parsing).
Abbreviation frame A := (list (column A)) (only parsing).
Abbreviation DataFrame := (frame cell) (only parsing).
(** A Series indexed by the column labels, as [DataFrame.sum()] returns. *)
Abbreviation Series A := (list (string * A)) (only parsing).

Definition labels {A} (df : frame A) : list string := map fst df.

Definition nrows {A} (df : frame A) : nat :=
  match df with
  | [] => 0
  | c :: _ => length (snd c)
  end.

(** Every column has one value per row. *)
Definition rectangular {A} (df : frame A) : bool :=
  forallb (fun c => Nat.eqb (length (snd c)) (nrows df)) df.

(** [df.iloc[i]]: record [i], the cell of each column at row position [i],
    keyed by the column label. *)
Definition iloc (i : nat) (df : DataFrame) : list (string * cell) :=
  map (fun c => (fst c, nth i (snd c) NaN)) df.

(** The records of the frame in row order. *)
Definition records (df : DataFrame) : list (list (string * cell)) :=
  map (fun i => iloc i df) (seq 0 (nrows df)).

(** [df.isnull()]: the frame of booleans of the same shape. *)
Definition isnull (df : DataFrame) : frame bool :=
  map (fun c => (fst c, map isna (snd c))) df.

(** [.sum()] of a boolean frame (axis 0): per column, the number of
    [True] values. *)
Definition frame_sum (bf : frame bool) : Series nat :=
  map (fun c => (fst c, length (filter (fun b => b) (snd c)))) bf.

(** [.sum()] of a Series of counts. *)
Definition series_sum (s : Series nat) : nat :=
  fold_right (fun kv acc => snd kv + acc) 0 s.

(** [df.isnull().sum().sum()].  The result is a numpy [int64]; it is at
    most the number of cells held in memory, so it never wraps. *)
Definition isnull_sum_sum (df : DataFrame) : nat :=
  series_sum (frame_sum (isnull df)).

(** What [fillna(value)] does to one cell. *)
Definition fill_cell (value : cell) (c : cell) : cell :=
  if isna c then value else c.

(** The frame [df.fillna(value)] gives when the call returns: every
    missing cell replaced.  The call does not always return: pandas
    rejects [None] as a value (ValueError) and, from version 3 on, a value
    that a column holding a missing cell cannot store, such as a string
    for a float64 column (TypeError).  Whether the call raises is not
    decided here: a run takes it from [fillna_fault] of its world, and
    what is stated of the call below is stated of [df_fillna_inplace],
    which asks [fillna_fault] first. *)
Definition fillna (value : cell) (df : DataFrame) : DataFrame :=
  map (fun c => (fst c, map (fill_cell value) (snd c))) df.

End Pandas.
Import Pandas.

(* ===================================================================== *)
(** ** pandas: [read_csv] with its default arguments *)
(* ===================================================================== *)

Module ReadCsv.

(** The lines of a file, each split at the delimiter by the tokenizer.  A
    blank line is a line of no field, [[]]; the header is the first line
    that is not blank. *)
Definition table : Type := list (list string).

(** The tokens [read_csv] takes for missing data by default
    ([keep_default_na=True]); the empty field is the first of them. *)
Definition na_values : list string :=
  [""; "#N/A"; "#N/A N/A"; "#NA"; "-1.#IND"; "-1.#QNAN"; "-NaN"; "-nan";
   "1.#IND"; "1.#QNAN"; "<NA>"; "N/A"; "NA"; "NULL"; "NaN"; "None";
   "n/a"; "nan"; "null"].

Definition is_na_token (t : string) : bool :=
  existsb (String.eqb t) na_values.

(** A field after NA detection: [None] when the token stands for a
    missing value. *)
Definition na_filter (t : string) : option string :=
  if is_na_token t then None else Some t.

Definition EmptyDataError : exn :=
  Exception "EmptyDataError" "No columns to parse from file".

(** The error of the C tokenizer for a line with too many fields;
    [file_line] is the number of the line in the file, from 1, blank lines
    counted. *)
Definition ParserError (ex_fields file_line fields : nat) : exn :=
  Exception "ParserError"
    ("Error tokenizing data. C error: Expected " ++ str_of_nat ex_fields
     ++ " fields in line " ++ str_of_nat file_line
     ++ ", saw " ++ str_of_nat fields ++ String "010"%char "").

(** "Missing trailing delimiters": a short line is completed with empty
    fields up to the expected count. *)
Definition pad (ex_fields : nat) (row : list string) : list string :=
  row ++ repeat "" (ex_fields - length row).

(** The tokenizer's end-of-line step for the lines after the first data
    line; [file_line] is the file line of the first of [rows].  A blank
    line is skipped ([skip_blank_lines=True]) and counted.  [ex_fields] is
    the field count of the previous line kept: a line with more fields is
    an error, a line with fewer is padded, so the count handed to the next
    line is [ex_fields] again. *)
Fixpoint end_lines (ex_fields file_line : nat) (rows : table)
  : table + exn :=
  match rows with
  | [] => inl []
  | [] :: rest => end_lines ex_fields (S file_line) rest
  | row :: rest =>
      if Nat.ltb ex_fields (length row)
      then inr (ParserError ex_fields file_line (length row))
      else match end_lines ex_fields (S file_line) rest with
           | inl t => inl (pad ex_fields row :: t)
           | inr e => inr e
           end
  end.

(** The data lines as the tokenizer hands them over, all of one width;
    [file_line] is the file line of the first of [data].  The first data
    line, the first that is not blank, is never an error: it is padded
    when shorter than the header, and when longer it fixes the width (its
    extra leading fields become the row index). *)
Fixpoint tokenize (header : list string) (file_line : nat) (data : table)
  : table + exn :=
  match data with
  | [] => inl []
  | [] :: rest => tokenize header (S file_line) rest
  | first :: rest =>
      let ex_fields := Nat.max (length header) (length first) in
      match end_lines ex_fields (S file_line) rest with
      | inl t => inl (pad ex_fields first :: t)
      | inr e => inr e
      end
  end.

(** The width of the tokenized data; the header's when there is none. *)
Definition width (header : list string) (data : table) : nat :=
  match data with
  | [] => length header
  | first :: _ => length first
  end.

(** The name of the header field at position [i]: an empty field is
    named after its position. *)
Definition unnamed (i : nat) (name : string) : string :=
  if String.eqb name "" then "Unnamed: " ++ str_of_nat i else name.

(** [this_header[i] = x]. *)
Fixpoint update (i : nat) (x : string) (l : list string) : list string :=
  match l, i with
  | [], _ => []
  | _ :: r, 0 => x :: r
  | y :: r, S i' => y :: update i' x r
  end.

(** [counts[col]], 0 for a name not counted yet. *)
Fixpoint count_of (counts : list (string * nat)) (col : string) : nat :=
  match counts with
  | [] => 0
  | (k, n) :: r => if String.eqb k col then n else count_of r col
  end.

(** The renaming of a repeated name: while the name has been given
    already, try [old_col.1], [old_col.2], ..., passing over the names
    the header holds.  The loop ends within as many turns as the header
    has fields, plus one; [fuel] is that bound, and it is never what
    stops the loop ([column_names_loops_end] below). *)
Fixpoint dedup_loop (fuel : nat) (this_header : list string)
    (old_col col : string) (cur_count : nat) (counts : list (string * nat))
  : string * nat * list (string * nat) :=
  match fuel with
  | 0 => (col, cur_count, counts)
  | S fuel' =>
      if Nat.eqb cur_count 0 then (col, cur_count, counts)
      else
        let counts' := (old_col, S cur_count) :: counts in
        let col' := (old_col ++ "." ++ str_of_nat cur_count)%string in
        if existsb (String.eqb col') this_header
        then dedup_loop fuel' this_header old_col col' (S cur_count) counts'
        else dedup_loop fuel' this_header old_col col'
                        (count_of counts' col') counts'
  end.

(** One turn of the renaming, for the field at position [i]. *)
Definition dedup_column (st : list string * list (string * nat)) (i : nat)
  : list string * list (string * nat) :=
  let this_header := fst st in
  let col := nth i this_header "" in
  match dedup_loop (S (S (length this_header))) this_header col col
                   (count_of (snd st) col) (snd st) with
  | (col', cur_count, counts) =>
      (update i col' this_header, (col', S cur_count) :: counts)
  end.

(** The labels [read_csv] makes of the header fields: an empty field
    becomes [Unnamed: i], and a repeated name gets a numbered suffix
    ([a], [a.1], ...); the fields that have a name are gone through
    first, then the unnamed ones. *)
Definition column_names (header : list string) : list string :=
  let positions := seq 0 (length header) in
  let is_unnamed := fun i => String.eqb (nth i header "") "" in
  fst (fold_left dedup_column
         (filter (fun i => negb (is_unnamed i)) positions
          ++ filter is_unnamed positions)
         (map (fun i => unnamed i (nth i header "")) positions, [])).

(** The frame built from the tokenized lines.  The [leading] fields of
    each line in excess of the header are the implicit row index and are
    no column of the frame; column [j] takes field [leading + j] of every
    line.  [infer_dtype] is the conversion of one column's tokens to
    values of the column's inferred dtype. *)
Definition frame_of (infer_dtype : list (option string) -> list cell)
    (header : list string) (data : table) : DataFrame :=
  let leading := width header data - length header in
  map (fun j =>
         (nth j (column_names header) "",
          infer_dtype (map (fun row => na_filter (nth (leading + j) row ""))
                           data)))
      (seq 0 (length header)).

(** [read_csv] on the lines of a file, the first of which is file line
    [file_line]: the blank lines before the header are passed over. *)
Fixpoint read_lines (infer_dtype : list (option string) -> list cell)
    (file_line : nat) (lines : table) : DataFrame + exn :=
  match lines with
  | [] => inr EmptyDataError
  | [] :: rest => read_lines infer_dtype (S file_line) rest
  | header :: data =>
      match tokenize header (S file_line) data with
      | inl t => inl (frame_of infer_dtype header t)
      | inr e => inr e
      end
  end.

Definition read_table (infer_dtype : list (option string) -> list cell)
    (lines : table) : DataFrame + exn :=
  read_lines infer_dtype 1 lines.

(** The simplest column conversion, dtype [object]: every present token
    is kept as a string, every missing one is NaN. *)
Definition object_dtype (col : list (option string)) : list cell :=
  map (fun t => match t with Some s => PyStr s | None => NaN end) col.

End ReadCsv.

(* ===================================================================== *)
(** ** The [logging] module as the scripts configure it *)
(* ===================================================================== *)

Module Logging.

Inductive level : Type := INFO | WARNING | ERROR.

Definition levelno (l : level) : nat :=
  match l with INFO => 20 | WARNING => 30 | ERROR => 40 end.

(** One record handed to the root logger's file handler.  [exc_info] is
    the exception whose traceback [logging.exception] appends to the
    record; the [asctime] stamp of the format string is not kept. *)
Record LogRecord : Type :=
  { levelname : level; message : string; exc_info : option exn }.

(** [basicConfig(level=logging.INFO)]. *)
Definition root_level : nat := 20.

(** A record reaches the sink when its level is at least the root
    logger's; the sink is append-only. *)
Definition handle (r : LogRecord) (sink : list LogRecord)
  : list LogRecord :=
  if Nat.leb root_level (levelno (levelname r)) then sink ++ [r] else sink.

End Logging.
Import Logging.

(* ===================================================================== *)
(** ** The world a run executes in, and the monad of a run *)
(* ===================================================================== *)

(** What a run takes from outside the two scripts: the file system, the
    dtype inference of the parser, the clock, and the faults the pandas
    calls may raise for reasons outside the data ([MemoryError] and the
    like). *)
Record World : Type :=
  { open_csv : string -> ReadCsv.table + exn;
      (** opening, decoding and splitting the file at a path, or the
          [OSError] / decoding error of the attempt *)
    infer_dtype : list (option string) -> list cell;
    isnull_sum_fault : DataFrame -> option exn;
    fillna_fault : DataFrame -> option exn;
    clock : nat -> spec_float
      (** the reading [time.time()] returns at its n-th call *) }.

(** The state a run threads: the log sink, the number of clock readings
    made so far, and the local variable [df] of the call of [process_csv]
    (unbound until [read_csv] has returned; kept as the call left it). *)
Record state : Type :=
  { sink : list LogRecord; clock_reads : nat; df : option DataFrame }.

Definition M (A : Type) : Type := state -> (A + exn) * state.

Definition ret {A} (a : A) : M A := fun s => (inl a, s).

Definition raise {A} (e : exn) : M A := fun s => (inr e, s).

Definition bind {A B} (c : M A) (k : A -> M B) : M B :=
  fun s => match c s with
           | (inl a, s') => k a s'
           | (inr e, s') => (inr e, s')
           end.

(** [try: body / except Exception as e: handler e]. *)
Definition try_except {A} (body : M A) (handler : exn -> M A) : M A :=
  fun s => match body s with
           | (inl a, s') => (inl a, s')
           | (inr e, s') => handler e s'
           end.

Notation "x <- c ;; k" := (bind c (fun x => k))
  (at level 61, c at next level, right associativity).
Notation "c ;; k" := (bind c (fun _ => k))
  (at level 61, right associativity).

(** A call of a logging function: one record offered to the sink.  The
    logging module reports its own errors on stderr and never raises. *)
Definition log_call (l : level) (msg : string) (exc : option exn) : M unit :=
  fun s => (inl tt,
            {| sink := handle {| levelname := l; message := msg;
                                 exc_info := exc |} (sink s);
               clock_reads := clock_reads s; df := df s |}).

Definition logging_info (msg : string) : M unit := log_call INFO msg None.
Definition logging_warning (msg : string) : M unit := log_call WARNING msg None.
Definition logging_error (msg : string) : M unit := log_call ERROR msg None.
(** [logging.exception]: level ERROR, with the exception being handled. *)
Definition logging_exception (msg : string) (e : exn) : M unit :=
  log_call ERROR msg (Some e).

(** [time.time()]. *)
Definition time_time (w : World) : M spec_float :=
  fun s => (inl (clock w (clock_reads s)),
            {| sink := sink s; clock_reads := S (clock_reads s);
               df := df s |}).

(** Float subtraction in binary64. *)
Definition float_sub (a b : spec_float) : spec_float := SFsub 53 1024 a b.

(** [pd.read_csv(file_path)]. *)
Definition pd_read_csv (w : World) (file_path : string) : DataFrame + exn :=
  match open_csv w file_path with
  | inl lines => ReadCsv.read_table (infer_dtype w) lines
  | inr e => inr e
  end.

(** A new call frame: [df] is unbound. *)
Definition enter : M unit :=
  fun s => (inl tt, {| sink := sink s; clock_reads := clock_reads s;
                       df := None |}).

(** [df = pd.read_csv(file_path)]. *)
Definition assign_df_read_csv (w : World) (file_path : string) : M unit :=
  fun s => match pd_read_csv w file_path with
           | inl d => (inl tt, {| sink := sink s;
                                  clock_reads := clock_reads s;
                                  df := Some d |})
           | inr e => (inr e, s)
           end.

Definition UnboundLocalError : exn :=
  Exception "UnboundLocalError"
    "cannot access local variable 'df' where it is not associated with a value".

(** Reading the local variable [df]. *)
Definition load_df : M DataFrame :=
  fun s => match df s with
           | Some d => (inl d, s)
           | None => (inr UnboundLocalError, s)
           end.

(** [df.isnull().sum().sum()]. *)
Definition df_isnull_sum_sum (w : World) : M nat :=
  d <- load_df ;;
  match isnull_sum_fault w d with
  | Some e => raise e
  | None => ret (isnull_sum_sum d)
  end.

(** [df.fillna(value, inplace=True)]: the frame [df] names is replaced by
    the filled one. *)
Definition df_fillna_inplace (w : World) (value : cell) : M unit :=
  d <- load_df ;;
  match fillna_fault w d with
  | Some e => raise e
  | None => fun s => (inl tt, {| sink := sink s;
                                 clock_reads := clock_reads s;
                                 df := Some (fillna value d) |})
  end.

(* ===================================================================== *)
(** ** [process_csv], as each script has it *)
(* ===================================================================== *)

Module CsvLogProcessor.

(** [csv_log_processor.py], [process_csv]. *)
Definition process_csv (w : World) (file_path : string) : M pyobj :=
  enter ;;
  try_except
    (logging_info ("Starting processing for file: " ++ file_path) ;;
     start_time <- time_time w ;;
     assign_df_read_csv w file_path ;;
     total_missing <- df_isnull_sum_sum w ;;
     (if Nat.ltb 0 total_missing
      then logging_warning ("File '" ++ file_path ++ "' contains "
                            ++ str_of_nat total_missing
                            ++ " missing values")
      else ret tt) ;;
     df_fillna_inplace w (PyStr "UNKNOWN") ;;
     now <- time_time w ;;
     logging_info ("Processing completed in "
                   ++ format_2f (float_sub now start_time)
                   ++ " seconds"))
    (fun e => logging_exception
                ("Failed to process file '" ++ file_path ++ "': "
                 ++ exc_str e) e) ;;
  ret PyNone.

End CsvLogProcessor.

Module LogCsvFile.

(** [logcsvfile.py], [process_csv]. *)
Definition process_csv (w : World) (file_path : string) : M pyobj :=
  enter ;;
  try_except
    (logging_info ("Starting processing for " ++ file_path) ;;
     start_time <- time_time w ;;
     assign_df_read_csv w file_path ;;
     missing_values <- df_isnull_sum_sum w ;;
     (if Nat.ltb 0 missing_values
      then logging_warning ("File " ++ file_path ++ " contains "
                            ++ str_of_nat missing_values
                            ++ " missing values")
      else ret tt) ;;
     df_fillna_inplace w (PyStr "UNKNOWN") ;;
     end_time <- time_time w ;;
     logging_info ("Processing completed in "
                   ++ format_2f (float_sub end_time start_time)
                   ++ " seconds"))
    (fun e => logging_error ("Error processing " ++ file_path ++ ": "
                             ++ exc_str e)) ;;
  ret PyNone.

End LogCsvFile.

(** The two scripts. *)
Inductive script : Type := csv_log_processor | logcsvfile.

Definition process_csv (sc : script) : World -> string -> M pyobj :=
  match sc with
  | csv_log_processor => CsvLogProcessor.process_csv
  | logcsvfile => LogCsvFile.process_csv
  end.

(** The statement of [process_csv] that reports the count (lines 56-57 of
    [csv_log_processor.py], 48-49 of [logcsvfile.py]), on its own. *)
Definition warn_if_missing (sc : script) (file_path : string) (n : nat)
  : M unit :=
  match sc with
  | csv_log_processor =>
      if Nat.ltb 0 n
      then logging_warning ("File '" ++ file_path ++ "' contains "
                            ++ str_of_nat n ++ " missing values")
      else ret tt
  | logcsvfile =>
      if Nat.ltb 0 n
      then logging_warning ("File " ++ file_path ++ " contains "
                            ++ str_of_nat n ++ " missing values")
      else ret tt
  end.

(* ===================================================================== *)
(** ** Vocabulary of the statements *)
(* ===================================================================== *)

(** The records each script writes, by kind. *)
Definition start_record (sc : script) (file_path : string) : LogRecord :=
  {| levelname := INFO;
     message := match sc with
                | csv_log_processor =>
                    "Starting processing for file: " ++ file_path
                | logcsvfile => "Starting processing for " ++ file_path
                end;
     exc_info := None |}.

Definition warning_record (sc : script) (file_path : string) (n : nat)
  : LogRecord :=
  {| levelname := WARNING;
     message := match sc with
                | csv_log_processor =>
                    "File '" ++ file_path ++ "' contains " ++ str_of_nat n
                    ++ " missing values"
                | logcsvfile =>
                    "File " ++ file_path ++ " contains " ++ str_of_nat n
                    ++ " missing values"
                end;
     exc_info := None |}.

Definition done_record (elapsed : spec_float) : LogRecord :=
  {| levelname := INFO;
     message := "Processing completed in " ++ format_2f elapsed
                ++ " seconds";
     exc_info := None |}.

Definition error_record (sc : script) (file_path : string) (e : exn)
  : LogRecord :=
  match sc with
  | csv_log_processor =>
      {| levelname := ERROR;
         message := "Failed to process file '" ++ file_path ++ "': "
                    ++ exc_str e;
         exc_info := Some e |}
  | logcsvfile =>
      {| levelname := ERROR;
         message := "Error processing " ++ file_path ++ ": " ++ exc_str e;
         exc_info := None |}
  end.

(** The number of missing cells of one column, and a boolean as a count. *)
Definition count_na (col : list cell) : nat := length (filter isna col).

Definition b2n (b : bool) : nat := if b then 1 else 0.

(** A column conversion turns the missing tokens, and only them, into
    missing values. *)
Definition keeps_absence (infer : list (option string) -> list cell) : Prop :=
  forall col,
    map isna (infer col)
    = map (fun t => match t with None => true | Some _ => false end) col.

(** [part] occurs in [msg]. *)
Definition contains (msg part : string) : Prop :=
  exists pre post : string, msg = (pre ++ part ++ post)%string.

Definition has_level (l : level) (r : LogRecord) : bool :=
  Nat.eqb (levelno (levelname r)) (levelno l).

(** The fault a run on [file_path] meets, if any: the one of loading, or
    else of counting, or else of filling. *)
Definition fault (w : World) (file_path : string) : option exn :=
  match pd_read_csv w file_path with
  | inr e => Some e
  | inl d =>
      match isnull_sum_fault w d with
      | Some e => Some e
      | None => fillna_fault w d
      end
  end.

(** What a call returns, the state it leaves, and the records it added to
    the sink. *)
Definition returned (sc : script) (w : World) (file_path : string)
    (s : state) : pyobj + exn :=
  fst (process_csv sc w file_path s).

Definition final (sc : script) (w : World) (file_path : string)
    (s : state) : state :=
  snd (process_csv sc w file_path s).

Definition emitted (sc : script) (w : World) (file_path : string)
    (s : state) : list LogRecord :=
  skipn (length (sink s)) (sink (final sc w file_path s)).

(** The cell of column [j] at row [i]. *)
Definition cell_at (d : DataFrame) (j i : nat) : option cell :=
  match nth_error d j with
  | Some c => nth_error (snd c) i
  | None => None
  end.

(** The result of a run, for each way it can go. *)
Definition run_of (sc : script) (w : World) (file_path : string)
    (s : state) : state :=
  let t0 := clock w (clock_reads s) in
  let t1 := clock w (S (clock_reads s)) in
  let started := sink s ++ [start_record sc file_path] in
  match pd_read_csv w file_path with
  | inr e =>
      {| sink := started ++ [error_record sc file_path e];
         clock_reads := S (clock_reads s); df := None |}
  | inl d =>
      let n := isnull_sum_sum d in
      let warned :=
        started ++ (if Nat.ltb 0 n then [warning_record sc file_path n]
                    else []) in
      match isnull_sum_fault w d with
      | Some e =>
          {| sink := started ++ [error_record sc file_path e];
             clock_reads := S (clock_reads s); df := Some d |}
      | None =>
          match fillna_fault w d with
          | Some e =>
              {| sink := warned ++ [error_record sc file_path e];
                 clock_reads := S (clock_reads s); df := Some d |}
          | None =>
              {| sink := warned ++ [done_record (float_sub t1 t0)];
                 clock_reads := S (S (clock_reads s));
                 df := Some (fillna (PyStr "UNKNOWN") d) |}
          end
      end
  end.

(* ===================================================================== *)
(** ** The specification's reading of the pipeline *)
(* ===================================================================== *)

Module Spec.

(** The discriminated result the specification gives [process]. *)
Inductive ProcessingOutcome : Type :=
| Success (cleanedDataset : DataFrame) (elapsedDuration : spec_float)
          (missingCount : nat)
| Failure (errorDescription : string).

(** The outcome the specification prescribes for a run that starts when
    the clock has been read [reads] times. *)
Definition process (w : World) (path : string) (reads : nat)
  : ProcessingOutcome :=
  match pd_read_csv w path with
  | inr e => Failure (exc_str e)
  | inl d =>
      match fault w path with
      | Some e => Failure (exc_str e)
      | None =>
          Success (fillna (PyStr "UNKNOWN") d)
                  (float_sub (clock w (S reads)) (clock w reads))
                  (isnull_sum_sum d)
      end
  end.

(** countMissing in the specification's words: the number of absent
    cells, record by record. *)
Definition countMissing (d : DataFrame) : nat :=
  list_sum (map (fun r => length (filter (fun kv => isna (snd kv)) r))
                (records d)).

(** A data line whose field count differs from the header's. *)
Definition inconsistent (lines : ReadCsv.table) : bool :=
  match lines with
  | [] => false
  | header :: data =>
      existsb (fun row => negb (Nat.eqb (length row) (length header))) data
  end.

End Spec.

(* ===================================================================== *)
(** ** An example world *)
(* ===================================================================== *)

Module Example.

(** Dtype inference cut down to two dtypes: [int64] when every token of
    the column is present and a decimal numeral, [object] otherwise (the
    columns of the files below are of these two kinds, or empty of
    data). *)
Definition int_of_token (t : option string) : option Z :=
  match t with
  | Some s => option_map Z.of_uint (NilEmpty.uint_of_string s)
  | None => None
  end.

Definition infer (col : list (option string)) : list cell :=
  if forallb (fun t => match int_of_token t with Some _ => true
                                             | None => false end) col
  then map (fun t => match int_of_token t with Some z => PyInt z
                                          | None => NaN end) col
  else ReadCsv.object_dtype col.

Definition FileNotFoundError (path : string) : exn :=
  Exception "FileNotFoundError"
    ("[Errno 2] No such file or directory: '" ++ path ++ "'").

(** Four files: one with two missing departments, one complete, one with
    a line shorter than the header, one with a line longer than it. *)
Definition files (path : string) : ReadCsv.table + exn :=
  if String.eqb path "data.csv" then
    inl [["ID"; "Department"];
         ["1"; "HR"]; ["2"; ""]; ["3"; "IT"]; ["4"; ""]]
  else if String.eqb path "full.csv" then
    inl [["ID"; "Department"]; ["1"; "HR"]; ["2"; "Finance"]]
  else if String.eqb path "short.csv" then
    inl [["ID"; "Department"]; ["1"; "HR"]; ["2"]]
  else if String.eqb path "long.csv" then
    inl [["ID"; "Department"]; ["1"; "HR"]; ["2"; "IT"; "x"]]
  else inr (FileNotFoundError path).

(** Readings 1.0, 2.25, then 2.25 for ever. *)
Definition readings (n : nat) : spec_float :=
  match n with
  | 0 => S754_finite false 4503599627370496 (-52)
  | _ => S754_finite false 5066549580791808 (-51)
  end.

Definition world : World :=
  {| open_csv := files; infer_dtype := infer;
     isnull_sum_fault := fun _ => None; fillna_fault := fun _ => None;
     clock := readings |}.

Definition fresh : state :=
  {| sink := []; clock_reads := 0; df := None |}.

End Example.

(* ===================================================================== *)
(** ** numpy: [arange], [random.randint], [random.choice] *)
(* ===================================================================== *)

Module Numpy.

Definition ValueError (msg : string) : exn := Exception "ValueError" msg.

(** [np.arange(start, stop)]. *)
Definition arange (start stop : Z) : list Z :=
  map (fun i => (start + Z.of_nat i)%Z) (seq 0 (Z.to_nat (stop - start))).

(** The global generator is taken as the stream [rng] of raw draws it is
    going to deliver; [k] is the position the call starts at.

    [np.random.randint(low, high, size=size)]: [size] integers, each at
    least [low] and below [high]. *)
Definition randint (rng : nat -> Z) (k : nat) (low high : Z) (size : nat)
  : list Z + exn :=
  if (high <=? low)%Z then inr (ValueError "low >= high")
  else inl (map (fun i => (low + rng (Nat.add k i) mod (high - low))%Z)
                (seq 0 size)).

(** [np.random.choice(a)]: one element of [a]. *)
Definition choice {A} (rng : nat -> Z) (k : nat) (a : list A) : A + exn :=
  match a with
  | [] => inr (ValueError "'a' cannot be empty unless no samples are taken")
  | x :: _ =>
      inl (nth (Z.to_nat (rng k mod Z.of_nat (length a))) a x)
  end.

End Numpy.

(* ===================================================================== *)
(** ** pandas: the [DataFrame] constructor and [to_csv] *)
(* ===================================================================== *)

Module ToCsv.

(** [str(z)] for an integer. *)
Definition str_of_Z (z : Z) : string := NilEmpty.string_of_int (Z.to_int z).

(** [pd.DataFrame(data)] for a dict of columns, in the dict's order. *)
Definition DataFrame_of_dict (data : list (string * list cell))
  : DataFrame + exn :=
  if rectangular data then inl data
  else inr (Numpy.ValueError "All arrays must be of the same length").

(** The text of one cell in the file: nothing for a missing value (the
    default [na_rep]), the value's [str] otherwise.  [float_repr] is the
    shortest decimal text that reads back as the float. *)
Definition field (float_repr : spec_float -> string) (c : cell) : string :=
  match c with
  | PyNone => ""
  | PyFloat S754_nan => ""
  | PyFloat f => float_repr f
  | PyBool b => if b then "True" else "False"
  | PyInt z => str_of_Z z
  | PyStr s => s
  end.

(** [df.to_csv(path, index=False)]: the lines written, as a reader splits
    them: the labels, then one line per record. *)
Definition lines (float_repr : spec_float -> string) (d : DataFrame)
  : ReadCsv.table :=
  labels d
  :: map (fun i => map (fun c => field float_repr (nth i (snd c) NaN)) d)
         (seq 0 (nrows d)).

End ToCsv.

(* ===================================================================== *)
(** ** [create_dummy_csv] and the entry code of the two scripts *)
(* ===================================================================== *)

(** What the generator takes from outside: the random stream, the float
    formatting of [to_csv], and the fault writing given lines to a path
    may meet.  A fault comes with what it leaves of the file: [None] when
    the path could not be opened, so that the file is as it was; the
    lines that reached the file otherwise, since opening a path for
    writing empties it. *)
Record Host : Type :=
  { rng : nat -> Z;
    float_repr : spec_float -> string;
    to_csv_fault : string -> ReadCsv.table
                   -> option (exn * option ReadCsv.table) }.

(** The world in which [path] holds [lines]; other paths are as before.
    (Two spellings of one location are two paths here.) *)
Definition with_file (w : World) (path : string) (lines : ReadCsv.table)
  : World :=
  {| open_csv := fun p => if String.eqb p path then inl lines
                          else open_csv w p;
     infer_dtype := infer_dtype w;
     isnull_sum_fault := isnull_sum_fault w;
     fillna_fault := fillna_fault w;
     clock := clock w |}.

(** [range(1, 11)]. *)
Definition range_1_11 : list Z := map Z.of_nat (seq 1 10).

(** The list comprehension of the departments: [n] calls of
    [np.random.choice], at stream positions [k], [k+1], ... *)
Fixpoint choices (rng : nat -> Z) (k n : nat) (a : list cell)
  : list cell + exn :=
  match n with
  | 0 => inl []
  | S n' =>
      match Numpy.choice rng k a with
      | inr e => inr e
      | inl x =>
          match choices rng (S k) n' a with
          | inr e => inr e
          | inl xs => inl (x :: xs)
          end
      end
  end.

(** The dict [data] of [create_dummy_csv] and the frame made of it.  The
    two [randint] calls take draws 0-9 and 10-19, the ten [choice] calls
    draws 20-29. *)
Definition dummy_frame (rng : nat -> Z) : DataFrame + exn :=
  match Numpy.randint rng 0 18 60 10 with
  | inr e => inr e
  | inl age =>
      match Numpy.randint rng 10 30000 100000 10 with
      | inr e => inr e
      | inl salary =>
          match choices rng 20 10
                        [PyStr "HR"; PyStr "IT"; PyStr "Finance"; PyNone] with
          | inr e => inr e
          | inl department =>
              ToCsv.DataFrame_of_dict
                [("ID", map PyInt (Numpy.arange 1 11));
                 ("Name", map (fun i => PyStr ("User_" ++ ToCsv.str_of_Z i))
                              range_1_11);
                 ("Age", map PyInt age);
                 ("Salary", map PyInt salary);
                 ("Department", department)]
          end
      end
  end.

(** The record both scripts log after writing the file (the one formats
    with [%s], the other with an f-string; the text is the same). *)
Definition created_record (file_path : string) : LogRecord :=
  {| levelname := INFO;
     message := "Dummy CSV file '" ++ file_path ++ "' created successfully.";
     exc_info := None |}.

(** [create_dummy_csv(file_path)], the same in both scripts: build the
    frame, write it, log.  Nothing is caught: a fault leaves the function
    as it was raised, before anything is logged; a fault in writing
    leaves of the file what [to_csv_fault] says. *)
Definition create_dummy_csv (h : Host) (file_path : string)
    (ws : World * state) : (pyobj + exn) * (World * state) :=
  match dummy_frame (rng h) with
  | inr e => (inr e, ws)
  | inl d =>
      match to_csv_fault h file_path (ToCsv.lines (float_repr h) d) with
      | Some (e, None) => (inr e, ws)
      | Some (e, Some written) =>
          (inr e, (with_file (fst ws) file_path written, snd ws))
      | None =>
          (inl PyNone,
           (with_file (fst ws) file_path (ToCsv.lines (float_repr h) d),
            snd (logging_info (message (created_record file_path))
                              (snd ws))))
      end
  end.

(** [main()] of [csv_log_processor.py] and the module-level code of
    [logcsvfile.py]: generate [data.csv], then process it. *)
Definition main (sc : script) (h : Host) (ws : World * state)
  : (pyobj + exn) * (World * state) :=
  match create_dummy_csv h "data.csv" ws with
  | (inr e, ws') => (inr e, ws')
  | (inl _, (w', s')) =>
      match process_csv sc w' "data.csv" s' with
      | (inr e, s'') => (inr e, (w', s''))
      | (inl _, s'') => (inl PyNone, (w', s''))
      end
  end.

(* ===================================================================== *)
(** ** The Flask views of [log.py] and [logging_endpoints.py] *)
(* ===================================================================== *)

Module Flask.

(** What a view returns: a body, or a (body, status) tuple. *)
Inductive view_result : Type :=
| Body (body : string)
| BodyStatus (body : string) (status : nat).

(** The response Flask makes of it: status 200 unless the view gives
    one. *)
Definition make_response (r : view_result) : string * nat :=
  match r with
  | Body b => (b, 200)
  | BodyStatus b st => (b, st)
  end.

(** The two routes, ["/"] and ["/error"]. *)
Inductive view : Type := home_view | error_view.

(** [home()]. *)
Definition home (sink : list LogRecord) : view_result * list LogRecord :=
  (Body "Welcome to the Flask API!",
   handle {| levelname := INFO; message := "Home page accessed";
             exc_info := None |} sink).

(** [error()]. *)
Definition error (sink : list LogRecord) : view_result * list LogRecord :=
  (BodyStatus "This is an error!" 500,
   handle {| levelname := ERROR; message := "Error endpoint triggered!";
             exc_info := None |} sink).

Definition call (v : view) : list LogRecord -> view_result * list LogRecord :=
  match v with
  | home_view => home
  | error_view => error
  end.

(** The views called one after the other, as requests arrive: the
    responses in order, and the sink at the end. *)
Fixpoint serve (vs : list view) (sink : list LogRecord)
  : list (string * nat) * list LogRecord :=
  match vs with
  | [] => ([], sink)
  | v :: rest =>
      let (r, sink') := call v sink in
      let (rs, sink'') := serve rest sink' in
      (make_response r :: rs, sink'')
  end.

End Flask.

(* ===================================================================== *)
(** ** Example hosts *)
(* ===================================================================== *)

Module ExampleHost.

(** A stream of draws, and a disk that takes the file.  The generated
    frame holds no float, so [float_repr] is never called. *)
Definition host : Host :=
  {| rng := fun n => Z.of_nat (7 * n + 3);
     float_repr := fun _ => "nan";
     to_csv_fault := fun _ _ => None |}.

(** The frame generated from that stream. *)
Definition drawn : DataFrame :=
  Eval vm_compute in
    match dummy_frame (rng host) with
    | inl d => d
    | inr _ => []
    end.

Definition PermissionError (path : string) : exn :=
  Exception "PermissionError"
    ("[Errno 13] Permission denied: '" ++ path ++ "'").

(** The same on a disk that lets no path be opened for writing. *)
Definition read_only : Host :=
  {| rng := fun n => Z.of_nat (7 * n + 3);
     float_repr := fun _ => "nan";
     to_csv_fault := fun path _ => Some (PermissionError path, None) |}.

Definition NoSpace : exn :=
  Exception "OSError" "[Errno 28] No space left on device".

(** The same on a disk that fills up: the path is opened, and emptied,
    and the write stops after the header line. *)
Definition full_disk : Host :=
  {| rng := fun n => Z.of_nat (7 * n + 3);
     float_repr := fun _ => "nan";
     to_csv_fault := fun _ lines => Some (NoSpace, Some (firstn 1 lines)) |}.

End ExampleHost.

(* ===================================================================== *)
(** ** An example world with float64 columns and a strict fill *)
(* ===================================================================== *)

Module Pandas3.

(** The float64 value of an integer. *)
Definition float_of_Z (z : Z) : spec_float := binary_normalize 53 1024 z 0 false.

(** Dtype inference with three dtypes: a column of decimal numerals is
    [int64] when none is missing and [float64], with NaN for the missing
    ones, otherwise; any other column is [object]. *)
Definition infer (col : list (option string)) : list cell :=
  if forallb (fun t => match t with
                       | Some _ => match Example.int_of_token t with
                                   | Some _ => true
                                   | None => false
                                   end
                       | None => true
                       end) col
  then
    if forallb (fun t => match t with Some _ => true | None => false end) col
    then map (fun t => match Example.int_of_token t with
                       | Some z => PyInt z
                       | None => NaN
                       end) col
    else map (fun t => match Example.int_of_token t with
                       | Some z => PyFloat (float_of_Z z)
                       | None => NaN
                       end) col
  else ReadCsv.object_dtype col.

Definition is_float (c : cell) : bool :=
  match c with
  | PyFloat _ => true
  | _ => false
  end.

(** A column of dtype float64 that holds a missing value. *)
Definition float64_with_nan (col : list cell) : bool :=
  forallb is_float col && existsb isna col.

Definition TypeError : exn :=
  Exception "TypeError" "Invalid value 'UNKNOWN' for dtype 'float64'".

(** The fill with a string as pandas 3 makes it: refused when a float64
    column holds a missing value. *)
Definition strict_fill (d : DataFrame) : option exn :=
  if existsb (fun c => float64_with_nan (snd c)) d then Some TypeError
  else None.

(** The example files, and one with an age missing. *)
Definition files (path : string) : ReadCsv.table + exn :=
  if String.eqb path "ages.csv" then
    inl [["ID"; "Age"]; ["1"; "30"]; ["2"; ""]]
  else Example.files path.

Definition world : World :=
  {| open_csv := files; infer_dtype := infer;
     isnull_sum_fault := fun _ => None; fillna_fault := strict_fill;
     clock := Example.readings |}.

End Pandas3.

(* ===================================================================== *)
(** ** More vocabulary *)
(* ===================================================================== *)

(** A blank line, and the lines that are not blank. *)
Definition blank (row : list string) : bool :=
  match row with
  | [] => true
  | _ :: _ => false
  end.

Definition nonblank (rows : ReadCsv.table) : ReadCsv.table :=
  filter (fun row => negb (blank row)) rows.

(** The loop of [dedup_column] for position [i] ends with a count of 0:
    its condition, [cur_count > 0], is what stops it. *)
Definition loop_ends (st : list string * list (string * nat)) (i : nat)
  : Prop :=
  snd (fst (ReadCsv.dedup_loop (S (S (length (fst st)))) (fst st)
              (nth i (fst st) "") (nth i (fst st) "")
              (ReadCsv.count_of (snd st) (nth i (fst st) "")) (snd st)))
  = 0.

(** The names counted so far are held by the header at the positions gone
    through. *)
Definition counted_at (st : list string * list (string * nat))
    (done : list nat) : Prop :=
  forall k, ReadCsv.count_of (snd st) k <> 0 ->
            exists p, In p done /\ nth_error (fst st) p = Some k.

(** The call [df.fillna(value, inplace=True)] made in state [s]: what it
    gives, and the state it leaves. *)
Definition fill_result (w : World) (value : cell) (s : state) : unit + exn :=
  fst (df_fillna_inplace w value s).

Definition fill_state (w : World) (value : cell) (s : state) : state :=
  snd (df_fillna_inplace w value s).

(** The number of fields of a line that read as missing. *)
Definition na_fields (row : list string) : nat :=
  length (filter ReadCsv.is_na_token row).

(** A string of decimal digits. *)
Fixpoint all_digits (s : string) : bool :=
  match s with
  | EmptyString => true
  | String c r =>
      (Nat.leb 48 (nat_of_ascii c) && Nat.leb (nat_of_ascii c) 57)
      && all_digits r
  end.

(** A decimal numeral, with or without a minus sign. *)
Definition numeral (s : string) : bool :=
  match s with
  | EmptyString => false
  | String "-" EmptyString => false
  | String "-" r => all_digits r
  | _ => all_digits s
  end.

(* ===================================================================== *)
(** ** Counting and filling *)
(* ===================================================================== *)

Section Counting.

Lemma count_true_isna (col : list cell) :
  length (filter (fun b : bool => b) (map isna col)) = count_na col.
Proof.
  unfold count_na.
  induction col as [|c col IH]; simpl; [reflexivity|].
  destruct (isna c); simpl; rewrite IH; reflexivity.
Qed.

Lemma isnull_sum_sum_columns (d : DataFrame) :
  isnull_sum_sum d = list_sum (map (fun c => count_na (snd c)) d).
Proof.
  unfold isnull_sum_sum, isnull, frame_sum, series_sum.
  induction d as [|c d IH]; simpl; [reflexivity|].
  rewrite count_true_isna, IH. reflexivity.
Qed.

Lemma list_sum_pointwise (f g : nat -> nat) (l : list nat) :
  list_sum (map (fun i => f i + g i) l)
  = list_sum (map f l) + list_sum (map g l).
Proof.
  induction l as [|x l IH]; simpl; [reflexivity|]. rewrite IH. lia.
Qed.

Lemma list_sum_cons (x : nat) (l : list nat) :
  list_sum (x :: l) = x + list_sum l.
Proof. reflexivity. Qed.

Lemma list_sum_zero (l : list nat) :
  list_sum (map (fun _ => 0) l) = 0.
Proof. induction l; simpl; auto. Qed.

(** A column counted cell by cell, by row position. *)
Lemma count_na_by_position (col : list cell) :
  count_na col
  = list_sum (map (fun i => b2n (isna (nth i col NaN)))
                  (seq 0 (length col))).
Proof.
  unfold count_na.
  induction col as [|c col IH]; [reflexivity|].
  cbn [length seq map filter nth].
  rewrite <- seq_shift, map_map. cbn [nth].
  rewrite list_sum_cons, <- IH.
  destruct (isna c); reflexivity.
Qed.

Lemma record_count (c : column cell) (d : DataFrame) (i : nat) :
  length (filter (fun kv => isna (snd kv)) (iloc i (c :: d)))
  = b2n (isna (nth i (snd c) NaN))
    + length (filter (fun kv => isna (snd kv)) (iloc i d)).
Proof.
  destruct c as [name col]. unfold iloc. simpl.
  destruct (isna (nth i col NaN)); reflexivity.
Qed.

(** Summing by record or by column gives the same total. *)
Lemma by_record_by_column (n : nat) (d : DataFrame) :
  Forall (fun c => length (snd c) = n) d ->
  list_sum (map (fun i => length (filter (fun kv => isna (snd kv))
                                         (iloc i d)))
                (seq 0 n))
  = list_sum (map (fun c => count_na (snd c)) d).
Proof.
  induction 1 as [|c d Hc _ IH].
  - cbn [iloc map filter length]. apply list_sum_zero.
  - cbn [map]. rewrite list_sum_cons, <- IH.
    rewrite (count_na_by_position (snd c)), Hc.
    rewrite <- list_sum_pointwise.
    f_equal. apply map_ext. intro i. apply record_count.
Qed.

Lemma rectangular_Forall (d : DataFrame) :
  rectangular d = true ->
  Forall (fun c => length (snd c) = nrows d) d.
Proof.
  unfold rectangular. rewrite forallb_forall, Forall_forall.
  intros H c Hin. apply Nat.eqb_eq, H, Hin.
Qed.

End Counting.

(** C3. [df.isnull().sum().sum()] is exactly the number of absent cells
    over all records and columns of the frame, and it is 0 for a frame
    with no record. *)
Theorem count_missing_exact (d : DataFrame) :
  rectangular d = true ->
  isnull_sum_sum d = Spec.countMissing d
  /\ (nrows d = 0 -> isnull_sum_sum d = 0).
Proof.
  intro Hrect.
  assert (Heq : isnull_sum_sum d = Spec.countMissing d).
  { rewrite isnull_sum_sum_columns. unfold Spec.countMissing, records.
    rewrite map_map. symmetry.
    apply by_record_by_column, rectangular_Forall, Hrect. }
  split; [exact Heq|].
  intro H0. rewrite Heq. unfold Spec.countMissing, records.
  rewrite H0. reflexivity.
Qed.

Lemma count_missing_exact_witness :
  rectangular [("ID", [PyInt 1; PyInt 2; PyInt 3]);
               ("Department", [NaN; PyStr "IT"; PyNone])] = true
  /\ isnull_sum_sum [("ID", [PyInt 1; PyInt 2; PyInt 3]);
                     ("Department", [NaN; PyStr "IT"; PyNone])] = 2.
Proof.
  split; [reflexivity|].
  rewrite (proj1 (count_missing_exact
                    [("ID", [PyInt 1; PyInt 2; PyInt 3]);
                     ("Department", [NaN; PyStr "IT"; PyNone])]
                    eq_refl)).
  reflexivity.
Defined.

Section Filling.

Variable sentinel : cell.

Lemma cell_at_fillna (d : DataFrame) (j i : nat) :
  cell_at (fillna sentinel d) j i
  = option_map (fill_cell sentinel) (cell_at d j i).
Proof.
  unfold cell_at, fillna. rewrite nth_error_map.
  destruct (nth_error d j) as [c|]; [|reflexivity].
  cbn [option_map snd]. apply nth_error_map.
Qed.


Lemma labels_fillna (d : DataFrame) :
  labels (fillna sentinel d) = labels d.
Proof. unfold labels, fillna. rewrite map_map. reflexivity. Qed.

Lemma nrows_fillna (d : DataFrame) :
  nrows (fillna sentinel d) = nrows d.
Proof. destruct d as [|c d]; [reflexivity|]. apply length_map. Qed.

End Filling.

(** The in-place fill, for each way it can go: [df] unbound, a fault, or
    the frame replaced by the filled one. *)
Lemma fill_cases (w : World) (v : cell) (s : state) :
  df_fillna_inplace w v s
  = match df s with
    | None => (inr UnboundLocalError, s)
    | Some d =>
        match fillna_fault w d with
        | Some e => (inr e, s)
        | None =>
            (inl tt, {| sink := sink s; clock_reads := clock_reads s;
                        df := Some (fillna v d) |})
        end
    end.
Proof.
  unfold df_fillna_inplace, bind, load_df.
  destruct (df s) as [d|]; [|reflexivity].
  destruct (fillna_fault w d); reflexivity.
Qed.


Lemma isnull_sum_sum_filled (v : cell) (d : DataFrame) :
  isna v = false -> isnull_sum_sum (fillna v d) = 0.
Proof.
  intro Hv. rewrite isnull_sum_sum_columns. unfold fillna.
  rewrite map_map. cbn [snd].
  induction d as [|c d IH]; [reflexivity|].
  cbn [map]. rewrite list_sum_cons, IH, Nat.add_0_r.
  unfold count_na. induction (snd c) as [|x col IHc]; [reflexivity|].
  cbn [map filter]. unfold fill_cell at 1.
  destruct (isna x) eqn:Hx; [rewrite Hv|rewrite Hx]; exact IHc.
Qed.

(** C4. The fill does not reach every dataset.  [ages.csv] has an age
    missing, which [read_csv] loads as NaN in a float64 column.  With a
    fill that refuses a string for such a column, as pandas 3 does,
    [df.fillna("UNKNOWN", inplace=True)] raises in either script: the run
    logs the start, the WARNING for one missing value and the ERROR of
    the fault, and the frame in [df] is the loaded one, its absent cell
    still absent. *)
Theorem fill_fails_on_float_column :
  open_csv Pandas3.world "ages.csv"
  = inl [["ID"; "Age"]; ["1"; "30"]; ["2"; ""]]
  /\ pd_read_csv Pandas3.world "ages.csv"
     = inl [("ID", [PyInt 1; PyInt 2]);
            ("Age", [PyFloat (Pandas3.float_of_Z 30); NaN])]
  /\ fillna_fault Pandas3.world
       [("ID", [PyInt 1; PyInt 2]);
        ("Age", [PyFloat (Pandas3.float_of_Z 30); NaN])]
     = Some Pandas3.TypeError
  /\ (forall sc,
        emitted sc Pandas3.world "ages.csv" Example.fresh
        = [start_record sc "ages.csv"; warning_record sc "ages.csv" 1;
           error_record sc "ages.csv" Pandas3.TypeError]
        /\ df (final sc Pandas3.world "ages.csv" Example.fresh)
           = Some [("ID", [PyInt 1; PyInt 2]);
                   ("Age", [PyFloat (Pandas3.float_of_Z 30); NaN])])
  /\ option_map isna
       (cell_at [("ID", [PyInt 1; PyInt 2]);
                 ("Age", [PyFloat (Pandas3.float_of_Z 30); NaN])] 1 1)
     = Some true.
Proof.
  split; [reflexivity|]. split; [reflexivity|]. split; [reflexivity|].
  split; [|reflexivity].
  intro sc. destruct sc; split; reflexivity.
Qed.



(** C9. The in-place fill keeps the shape of the frame, whether it
    returns or raises: the frame in [df] afterwards has the same column
    labels in the same order, the same number of records, and every cell
    at the column and row position it had, as it was or filled (so the
    records keep their order and their keys).  When the call returns,
    every cell is the filled one. *)
Theorem fillna_preserves_shape (w : World) (v : cell) (s : state)
    (d : DataFrame) :
  isna v = false ->
  df s = Some d ->
  exists d',
    df (fill_state w v s) = Some d'
    /\ labels d' = labels d
    /\ nrows d' = nrows d
    /\ length (records d') = length (records d)
    /\ map (fun c => length (snd c)) d' = map (fun c => length (snd c)) d
    /\ (forall j i,
          cell_at d' j i = cell_at d j i
          \/ cell_at d' j i = option_map (fill_cell v) (cell_at d j i))
    /\ (fill_result w v s = inl tt ->
        forall j i,
          cell_at d' j i = option_map (fill_cell v) (cell_at d j i))
    /\ (forall i, map fst (iloc i d') = map fst (iloc i d))
    /\ rectangular d' = rectangular d.
Proof.
  intros _ Hd. unfold fill_state, fill_result.
  rewrite (fill_cases w v s), Hd.
  destruct (fillna_fault w d) as [e|]; cbn [fst snd df].
  - exists d. split; [exact Hd|]. do 4 (split; [reflexivity|]).
    split; [intros j i; left; reflexivity|].
    split; [discriminate|]. split; reflexivity.
  - exists (fillna v d).
    assert (Hlen : map (fun c : string * list cell => length (snd c))
                       (fillna v d)
                   = map (fun c => length (snd c)) d).
    { unfold fillna. rewrite map_map. apply map_ext. intro c.
      cbn [snd]. apply length_map. }
    split; [reflexivity|].
    split; [apply labels_fillna|].
    split; [apply nrows_fillna|].
    split; [unfold records; rewrite !length_map, !length_seq;
            apply nrows_fillna|].
    split; [exact Hlen|].
    split; [intros j i; right; apply cell_at_fillna|].
    split; [intros _ j i; apply cell_at_fillna|].
    split; [intro i; unfold iloc, fillna; rewrite !map_map; reflexivity|].
    unfold rectangular. rewrite nrows_fillna.
    generalize (nrows d). intro n. clear. unfold fillna.
    induction d as [|c d IH]; [reflexivity|].
    cbn [map forallb snd]. rewrite length_map. f_equal. apply IH.
Qed.

Lemma fillna_preserves_shape_witness :
  isna (PyStr "UNKNOWN") = false
  /\ exists d',
       df (fill_state Pandas3.world (PyStr "UNKNOWN")
             {| sink := []; clock_reads := 0;
                df := Some [("Age", [PyFloat (Pandas3.float_of_Z 30); NaN]);
                            ("Department", [PyStr "HR"; NaN])] |})
       = Some d'
       /\ labels d' = ["Age"; "Department"]
       /\ nrows d' = 2.
Proof.
  split; [reflexivity|].
  destruct (fillna_preserves_shape Pandas3.world (PyStr "UNKNOWN")
              {| sink := []; clock_reads := 0;
                 df := Some [("Age", [PyFloat (Pandas3.float_of_Z 30); NaN]);
                             ("Department", [PyStr "HR"; NaN])] |}
              [("Age", [PyFloat (Pandas3.float_of_Z 30); NaN]);
               ("Department", [PyStr "HR"; NaN])]
              eq_refl eq_refl)
    as [d' [Hdf [Hlab [Hrows _]]]].
  exists d'. split; [exact Hdf|]. split; [exact Hlab|exact Hrows].
Defined.

(* ===================================================================== *)
(** ** Runs of [process_csv] *)
(* ===================================================================== *)

(** Each call returns [None] and leaves the state [run_of] describes. *)
Lemma process_csv_run (sc : script) (w : World) (file_path : string)
    (s : state) :
  process_csv sc w file_path s = (inl PyNone, run_of sc w file_path s).
Proof.
  destruct sc;
    unfold process_csv, CsvLogProcessor.process_csv, LogCsvFile.process_csv,
      run_of, try_except, bind, enter, assign_df_read_csv,
      df_isnull_sum_sum, df_fillna_inplace, load_df, bind, time_time,
      logging_info, logging_warning, logging_error, logging_exception,
      log_call, ret, raise;
    cbn [sink clock_reads df fst snd];
    destruct (pd_read_csv w file_path) as [d|e];
    cbn [sink clock_reads df];
    try reflexivity;
    destruct (isnull_sum_fault w d) as [e1|];
    cbn [sink clock_reads df];
    try reflexivity;
    destruct (Nat.ltb 0 (isnull_sum_sum d));
    cbn [sink clock_reads df];
    destruct (fillna_fault w d) as [e2|];
    cbn [sink clock_reads df];
    unfold handle; cbn; rewrite <- ?app_assoc; reflexivity.
Qed.

Lemma skipn_length_app {A} (l r : list A) : skipn (length l) (l ++ r) = r.
Proof. induction l as [|x l IH]; [reflexivity|exact IH]. Qed.

Lemma returned_none (sc : script) (w : World) (file_path : string)
    (s : state) :
  returned sc w file_path s = inl PyNone.
Proof. unfold returned. rewrite process_csv_run. reflexivity. Qed.

Lemma final_run (sc : script) (w : World) (file_path : string)
    (s : state) :
  final sc w file_path s = run_of sc w file_path s.
Proof. unfold final. rewrite process_csv_run. reflexivity. Qed.

(** The records a call adds to the sink, for each way it can go. *)
Lemma emitted_cases (sc : script) (w : World) (file_path : string)
    (s : state) :
  emitted sc w file_path s
  = start_record sc file_path
    :: match pd_read_csv w file_path with
       | inr e => [error_record sc file_path e]
       | inl d =>
           match isnull_sum_fault w d with
           | Some e => [error_record sc file_path e]
           | None =>
               (if Nat.ltb 0 (isnull_sum_sum d)
                then [warning_record sc file_path (isnull_sum_sum d)]
                else [])
               ++ [match fillna_fault w d with
                   | Some e => error_record sc file_path e
                   | None =>
                       done_record
                         (float_sub (clock w (S (clock_reads s)))
                                    (clock w (clock_reads s)))
                   end]
           end
       end.
Proof.
  unfold emitted. rewrite final_run. unfold run_of.
  destruct (pd_read_csv w file_path) as [d|e]; cbn [sink].
  - destruct (isnull_sum_fault w d) as [e1|]; cbn [sink].
    + rewrite <- app_assoc. apply skipn_length_app.
    + destruct (fillna_fault w d) as [e2|]; cbn [sink];
        rewrite <- !app_assoc; apply skipn_length_app.
  - rewrite <- app_assoc. apply skipn_length_app.
Qed.

(** The sink is append-only: a call leaves the earlier records in place. *)
Lemma sink_appended (sc : script) (w : World) (file_path : string)
    (s : state) :
  sink (final sc w file_path s) = sink s ++ emitted sc w file_path s.
Proof.
  rewrite emitted_cases, final_run. unfold run_of.
  destruct (pd_read_csv w file_path) as [d|e]; cbn [sink].
  - destruct (isnull_sum_fault w d) as [e1|]; cbn [sink].
    + rewrite <- app_assoc. reflexivity.
    + destruct (fillna_fault w d) as [e2|]; cbn [sink];
        rewrite <- !app_assoc; reflexivity.
  - rewrite <- app_assoc. reflexivity.
Qed.

Lemma contains_intro (pre part post : string) :
  contains (pre ++ part ++ post) part.
Proof. exists pre, post. reflexivity. Qed.

Lemma append_assoc (a b c : string) :
  ((a ++ b) ++ c)%string = (a ++ b ++ c)%string.
Proof. induction a as [|x a IH]; [reflexivity|]. cbn. rewrite IH. reflexivity. Qed.

Lemma contains_suffix (pre part : string) : contains (pre ++ part) part.
Proof.
  exists pre, ""%string.
  f_equal. induction part as [|x p IH]; [reflexivity|].
  cbn. rewrite <- IH. reflexivity.
Qed.

(** The ERROR record names the file and describes the fault. *)
Lemma error_record_content (sc : script) (file_path : string) (e : exn) :
  levelname (error_record sc file_path e) = ERROR
  /\ contains (message (error_record sc file_path e)) file_path
  /\ contains (message (error_record sc file_path e)) (exc_str e).
Proof.
  destruct sc; cbn [error_record levelname message]; repeat split.
  - apply (contains_intro "Failed to process file '").
  - rewrite <- append_assoc. rewrite <- append_assoc. apply contains_suffix.
  - apply (contains_intro "Error processing ").
  - rewrite <- append_assoc. rewrite <- append_assoc. apply contains_suffix.
Qed.

(** The WARNING record names the file and gives the count. *)
Lemma warning_record_content (sc : script) (file_path : string) (n : nat) :
  levelname (warning_record sc file_path n) = WARNING
  /\ contains (message (warning_record sc file_path n)) file_path
  /\ contains (message (warning_record sc file_path n)) (str_of_nat n).
Proof.
  destruct sc; cbn [warning_record levelname message]; repeat split.
  - apply (contains_intro "File '").
  - rewrite <- append_assoc. rewrite <- append_assoc.
    apply (contains_intro (("File '" ++ file_path) ++ "' contains ")).
  - apply (contains_intro "File ").
  - rewrite <- append_assoc. rewrite <- append_assoc.
    apply (contains_intro (("File " ++ file_path) ++ " contains ")).
Qed.

(** A path that cannot be opened is a fault of the run. *)
Lemma fault_of_unreadable (w : World) (file_path : string) (e : exn) :
  open_csv w file_path = inr e -> fault w file_path = Some e.
Proof. intro H. unfold fault, pd_read_csv. rewrite H. reflexivity. Qed.

(** Three runs in the example world: a file with two absent cells, a
    complete file, a path with no file. *)
Example run_with_absent_cells :
  process_csv csv_log_processor Example.world "data.csv" Example.fresh
  = (inl PyNone,
     {| sink :=
          [ {| levelname := INFO;
               message := "Starting processing for file: data.csv";
               exc_info := None |};
            {| levelname := WARNING;
               message := "File 'data.csv' contains 2 missing values";
               exc_info := None |};
            {| levelname := INFO;
               message := "Processing completed in 1.25 seconds";
               exc_info := None |} ];
        clock_reads := 2;
        df := Some [("ID", [PyInt 1; PyInt 2; PyInt 3; PyInt 4]);
                    ("Department", [PyStr "HR"; PyStr "UNKNOWN";
                                    PyStr "IT"; PyStr "UNKNOWN"])] |}).
Proof. reflexivity. Qed.

Example run_on_complete_file :
  process_csv logcsvfile Example.world "full.csv" Example.fresh
  = (inl PyNone,
     {| sink :=
          [ {| levelname := INFO;
               message := "Starting processing for full.csv";
               exc_info := None |};
            {| levelname := INFO;
               message := "Processing completed in 1.25 seconds";
               exc_info := None |} ];
        clock_reads := 2;
        df := Some [("ID", [PyInt 1; PyInt 2]);
                    ("Department", [PyStr "HR"; PyStr "Finance"])] |}).
Proof. reflexivity. Qed.

Example run_on_missing_path :
  process_csv csv_log_processor Example.world "nope.csv" Example.fresh
  = (inl PyNone,
     {| sink :=
          [ {| levelname := INFO;
               message := "Starting processing for file: nope.csv";
               exc_info := None |};
            {| levelname := ERROR;
               message := "Failed to process file 'nope.csv': [Errno 2] No such file or directory: 'nope.csv'";
               exc_info := Some (Example.FileNotFoundError "nope.csv") |} ];
        clock_reads := 1;
        df := None |}).
Proof. reflexivity. Qed.

(* ===================================================================== *)
(** ** What a call returns *)
(* ===================================================================== *)

(** C1, as it is worded, fails.  On a file that loads and on a path with
    no file the call returns the same [None], so no reading of the
    returned value yields the Success of the one run and the Failure of
    the other. *)
Lemma process_returns_no_outcome :
  returned logcsvfile Example.world "data.csv" Example.fresh = inl PyNone
  /\ returned logcsvfile Example.world "nope.csv" Example.fresh = inl PyNone
  /\ ~ exists decode : pyobj -> Spec.ProcessingOutcome,
         forall path, exists v,
           returned logcsvfile Example.world path Example.fresh = inl v
           /\ decode v = Spec.process Example.world path 0.
Proof.
  split; [reflexivity|]. split; [reflexivity|].
  intros [decode H].
  destruct (H "data.csv") as [v1 [R1 D1]].
  destruct (H "nope.csv") as [v2 [R2 D2]].
  rewrite returned_none in R1, R2.
  injection R1 as <-. injection R2 as <-.
  rewrite D1 in D2. vm_compute in D2. discriminate D2.
Qed.

(** C1, amended.  On every path and in either script [process_csv]
    returns [None], whether the pipeline completes or not.  When it
    completes, the cleaned frame is what the local [df] holds and the
    elapsed time is in the last record logged; when it does not, the
    description of the fault is in the last record logged, an ERROR. *)
Theorem process_csv_returns_none (sc : script) (w : World)
    (file_path : string) (s : state) :
  returned sc w file_path s = inl PyNone
  /\ match fault w file_path with
     | None =>
         exists d, pd_read_csv w file_path = inl d
           /\ df (final sc w file_path s)
              = Some (fillna (PyStr "UNKNOWN") d)
           /\ last (emitted sc w file_path s) (start_record sc file_path)
              = done_record (float_sub (clock w (S (clock_reads s)))
                                       (clock w (clock_reads s)))
     | Some e =>
         last (emitted sc w file_path s) (start_record sc file_path)
         = error_record sc file_path e
     end.
Proof.
  split; [apply returned_none|].
  rewrite emitted_cases, final_run. unfold fault, run_of.
  destruct (pd_read_csv w file_path) as [d|e]; [|reflexivity].
  destruct (isnull_sum_fault w d) as [e1|]; [reflexivity|].
  destruct (fillna_fault w d) as [e2|].
  - destruct (Nat.ltb 0 (isnull_sum_sum d)); reflexivity.
  - exists d. repeat split.
    destruct (Nat.ltb 0 (isnull_sum_sum d)); reflexivity.
Qed.

(** C2, as it is worded, fails in one respect: no Failure outcome is
    returned.  A missing file and a malformed one make the call return the
    same [None], which is also what a run without fault returns, so the
    returned value tells neither the failure nor its description. *)
Lemma failure_returns_no_outcome :
  fault Example.world "nope.csv"
  = Some (Example.FileNotFoundError "nope.csv")
  /\ fault Example.world "long.csv" = Some (ReadCsv.ParserError 2 3 3)
  /\ fault Example.world "full.csv" = None
  /\ returned csv_log_processor Example.world "nope.csv" Example.fresh
     = returned csv_log_processor Example.world "long.csv" Example.fresh
  /\ returned csv_log_processor Example.world "nope.csv" Example.fresh
     = returned csv_log_processor Example.world "full.csv" Example.fresh
  /\ ~ exists decode : pyobj -> Spec.ProcessingOutcome,
         forall path e, fault Example.world path = Some e ->
           exists v,
             returned csv_log_processor Example.world path Example.fresh
             = inl v
             /\ decode v = Spec.Failure (exc_str e).
Proof.
  split; [reflexivity|]. split; [reflexivity|]. split; [reflexivity|].
  split; [reflexivity|]. split; [reflexivity|].
  intros [decode H].
  destruct (H "nope.csv" _ eq_refl) as [v1 [R1 D1]].
  destruct (H "long.csv" _ eq_refl) as [v2 [R2 D2]].
  rewrite returned_none in R1, R2.
  injection R1 as <-. injection R2 as <-.
  rewrite D1 in D2. vm_compute in D2. discriminate D2.
Qed.

(** C2, amended.  Whatever fault the run meets, in loading (a path with
    no readable file included), in counting or in filling, [process_csv]
    catches it: the call returns normally, with [None], and exactly one
    ERROR record is logged, which names the file and carries the
    description of the fault. *)
Theorem fault_logged_once_and_contained (sc : script) (w : World)
    (file_path : string) (s : state) (e : exn) :
  fault w file_path = Some e ->
  returned sc w file_path s = inl PyNone
  /\ filter (has_level ERROR) (emitted sc w file_path s)
     = [error_record sc file_path e]
  /\ levelname (error_record sc file_path e) = ERROR
  /\ contains (message (error_record sc file_path e)) file_path
  /\ contains (message (error_record sc file_path e)) (exc_str e).
Proof.
  intro Hf. split; [apply returned_none|].
  split; [|apply error_record_content].
  rewrite emitted_cases. revert Hf. unfold fault.
  destruct (pd_read_csv w file_path) as [d|e0].
  - destruct (isnull_sum_fault w d) as [e1|].
    + intro H. injection H as ->. destruct sc; reflexivity.
    + intro H. rewrite H.
      destruct (Nat.ltb 0 (isnull_sum_sum d)); destruct sc; reflexivity.
  - intro H. injection H as ->. destruct sc; reflexivity.
Qed.

Lemma fault_logged_once_and_contained_witness :
  fault Example.world "nope.csv"
  = Some (Example.FileNotFoundError "nope.csv")
  /\ filter (has_level ERROR)
            (emitted logcsvfile Example.world "nope.csv" Example.fresh)
     = [error_record logcsvfile "nope.csv"
          (Example.FileNotFoundError "nope.csv")].
Proof.
  split; [reflexivity|].
  apply (fault_logged_once_and_contained logcsvfile Example.world
           "nope.csv" Example.fresh
           (Example.FileNotFoundError "nope.csv") eq_refl).
Defined.

(* ===================================================================== *)
(** ** The warning *)
(* ===================================================================== *)

(** [process_csv] runs [warn_if_missing] on the count, in both scripts. *)
Lemma process_csv_warns (sc : script) (w : World) (file_path : string) :
  process_csv sc w file_path
  = (enter ;;
     try_except
       (logging_info (message (start_record sc file_path)) ;;
        start_time <- time_time w ;;
        assign_df_read_csv w file_path ;;
        n <- df_isnull_sum_sum w ;;
        warn_if_missing sc file_path n ;;
        df_fillna_inplace w (PyStr "UNKNOWN") ;;
        end_time <- time_time w ;;
        logging_info (message (done_record (float_sub end_time start_time))))
       (fun e => log_call ERROR (message (error_record sc file_path e))
                          (exc_info (error_record sc file_path e))) ;;
     ret PyNone).
Proof. destruct sc; reflexivity. Qed.

(** C5. Given a count, a file name and a sink, the reporting statement
    appends exactly one WARNING record, holding the file name and the
    count, when the count is above 0, and leaves the sink as it is when
    the count is 0; it never raises.  In a run, the WARNING records
    emitted are those of this statement on the counted value: one or
    none. *)
Theorem warn_if_missing_once (sc : script) (file_path : string) (n : nat)
    (s : state) :
  fst (warn_if_missing sc file_path n s) = inl tt
  /\ sink (snd (warn_if_missing sc file_path n s))
     = sink s ++ (if Nat.ltb 0 n then [warning_record sc file_path n]
                  else [])
  /\ levelname (warning_record sc file_path n) = WARNING
  /\ contains (message (warning_record sc file_path n)) file_path
  /\ contains (message (warning_record sc file_path n)) (str_of_nat n)
  /\ (forall w : World,
        filter (has_level WARNING) (emitted sc w file_path s)
        = match pd_read_csv w file_path with
          | inl d =>
              match isnull_sum_fault w d with
              | None =>
                  if Nat.ltb 0 (isnull_sum_sum d)
                  then [warning_record sc file_path (isnull_sum_sum d)]
                  else []
              | Some _ => []
              end
          | inr _ => []
          end)
  /\ (forall w : World,
        length (filter (has_level WARNING) (emitted sc w file_path s)) <= 1).
Proof.
  assert (Hrun : forall w : World,
    filter (has_level WARNING) (emitted sc w file_path s)
    = match pd_read_csv w file_path with
      | inl d =>
          match isnull_sum_fault w d with
          | None =>
              if Nat.ltb 0 (isnull_sum_sum d)
              then [warning_record sc file_path (isnull_sum_sum d)]
              else []
          | Some _ => []
          end
      | inr _ => []
      end).
  { intro w. rewrite emitted_cases.
    destruct (pd_read_csv w file_path) as [d|e];
      [|destruct sc; reflexivity].
    destruct (isnull_sum_fault w d) as [e1|]; [destruct sc; reflexivity|].
    destruct (Nat.ltb 0 (isnull_sum_sum d));
      destruct (fillna_fault w d); destruct sc; reflexivity. }
  split; [destruct sc; unfold warn_if_missing;
          destruct (Nat.ltb 0 n); reflexivity|].
  split.
  { destruct sc; unfold warn_if_missing; destruct (Nat.ltb 0 n);
      try reflexivity; symmetry; apply app_nil_r. }
  split; [apply warning_record_content|].
  split; [apply warning_record_content|].
  split; [apply warning_record_content|].
  split; [exact Hrun|].
  intro w. rewrite Hrun.
  destruct (pd_read_csv w file_path) as [d|e]; [|cbn [length]; lia].
  destruct (isnull_sum_fault w d); [cbn [length]; lia|].
  destruct (Nat.ltb 0 (isnull_sum_sum d)); cbn [length]; lia.
Qed.

(* ===================================================================== *)
(** ** What a run lets be observed *)
(* ===================================================================== *)

(** C6, as it is worded, fails: a failed run does not log the ERROR record
    alone.  The start record is logged before the file is opened, so a
    path with no file leaves two records, INFO then ERROR. *)
Lemma failed_run_logs_start_first :
  fault Example.world "nope.csv"
  = Some (Example.FileNotFoundError "nope.csv")
  /\ emitted logcsvfile Example.world "nope.csv" Example.fresh
     = [ {| levelname := INFO;
            message := "Starting processing for nope.csv";
            exc_info := None |};
         {| levelname := ERROR;
            message := "Error processing nope.csv: [Errno 2] No such file or directory: 'nope.csv'";
            exc_info := None |} ]
  /\ ~ (forall r, In r (emitted logcsvfile Example.world "nope.csv"
                          Example.fresh) ->
                  levelname r = ERROR).
Proof.
  split; [reflexivity|]. split; [reflexivity|].
  intro H.
  specialize (H {| levelname := INFO;
                   message := "Starting processing for nope.csv";
                   exc_info := None |}).
  cbn in H. discriminate H. left. reflexivity.
Qed.

(** C6, amended.  A run returns [None] and is observed through its log
    alone.  It first logs the INFO start record.  A run that completes
    then logs the WARNING record when cells are absent and the INFO
    record of the elapsed time, and leaves the cleaned frame in [df].  A
    run that fails logs one ERROR record last, preceded by the WARNING
    record only when the fault is raised in filling a frame with absent
    cells; it logs nothing after the ERROR record. *)
Theorem run_observations (sc : script) (w : World) (file_path : string)
    (s : state) :
  returned sc w file_path s = inl PyNone
  /\ sink (final sc w file_path s) = sink s ++ emitted sc w file_path s
  /\ match pd_read_csv w file_path with
     | inr e =>
         emitted sc w file_path s
         = [start_record sc file_path; error_record sc file_path e]
     | inl d =>
         let warning :=
           if Nat.ltb 0 (isnull_sum_sum d)
           then [warning_record sc file_path (isnull_sum_sum d)] else [] in
         match isnull_sum_fault w d, fillna_fault w d with
         | Some e, _ =>
             emitted sc w file_path s
             = [start_record sc file_path; error_record sc file_path e]
         | None, Some e =>
             emitted sc w file_path s
             = start_record sc file_path
               :: warning ++ [error_record sc file_path e]
         | None, None =>
             emitted sc w file_path s
             = start_record sc file_path
               :: warning
                  ++ [done_record
                        (float_sub (clock w (S (clock_reads s)))
                                   (clock w (clock_reads s)))]
             /\ df (final sc w file_path s)
                = Some (fillna (PyStr "UNKNOWN") d)
         end
     end.
Proof.
  split; [apply returned_none|]. split; [apply sink_appended|].
  rewrite emitted_cases, final_run. unfold run_of.
  destruct (pd_read_csv w file_path) as [d|e]; [|reflexivity].
  cbv zeta.
  destruct (isnull_sum_fault w d) as [e1|]; [reflexivity|].
  destruct (fillna_fault w d) as [e2|]; [reflexivity|].
  split; reflexivity.
Qed.

(* ===================================================================== *)
(** ** The sentinel *)
(* ===================================================================== *)

(** C10. The value put in place of absent cells is the string literal
    "UNKNOWN" in every run of either script: the frame a completed run
    leaves is the loaded one filled with that string, whatever the path,
    which is the only argument of the call; a run that does not complete
    leaves [df] unbound or as loaded. *)
Theorem sentinel_is_UNKNOWN (sc : script) (w : World) (file_path : string)
    (s : state) :
  match pd_read_csv w file_path with
  | inl d =>
      match fault w file_path with
      | None =>
          df (final sc w file_path s) = Some (fillna (PyStr "UNKNOWN") d)
          /\ (forall j i c, cell_at d j i = Some c -> isna c = true ->
                option_map (fun d' => cell_at d' j i)
                           (df (final sc w file_path s))
                = Some (Some (PyStr "UNKNOWN")))
      | Some _ => df (final sc w file_path s) = Some d
      end
  | inr _ => df (final sc w file_path s) = None
  end.
Proof.
  rewrite final_run. unfold fault, run_of.
  destruct (pd_read_csv w file_path) as [d|e]; [|reflexivity].
  destruct (isnull_sum_fault w d) as [e1|]; [reflexivity|].
  destruct (fillna_fault w d) as [e2|]; [reflexivity|].
  cbn [df]. split; [reflexivity|].
  intros j i c Hc Hna. cbn [option_map]. f_equal.
  rewrite cell_at_fillna, Hc. cbn [option_map].
  unfold fill_cell. rewrite Hna. reflexivity.
Qed.

(* ===================================================================== *)
(** ** Lines shorter or longer than the header *)
(* ===================================================================== *)

Section Lines.

Variable infer : list (option string) -> list cell.

Lemma length_pad (w : nat) (row : list string) :
  length row <= w -> length (ReadCsv.pad w row) = w.
Proof.
  intro H. unfold ReadCsv.pad. rewrite length_app, repeat_length. lia.
Qed.

Lemma nth_pad (w j : nat) (row : list string) :
  length row <= j -> nth j (ReadCsv.pad w row) "" = "".
Proof.
  intro H. unfold ReadCsv.pad. rewrite app_nth2 by exact H.
  apply nth_repeat.
Qed.

Lemma end_lines_short (w k : nat) (rows : ReadCsv.table) :
  Forall (fun row => length row <= w) rows ->
  ReadCsv.end_lines w k rows = inl (map (ReadCsv.pad w) (nonblank rows)).
Proof.
  intro H. revert k. induction H as [|row rows Hrow _ IH]; intro k.
  - reflexivity.
  - destruct row as [|x row]; [exact (IH (S k))|].
    cbn [ReadCsv.end_lines nonblank filter blank negb map].
    destruct (Nat.ltb_spec w (length (x :: row))) as [Hlt|_]; [lia|].
    rewrite IH. reflexivity.
Qed.

Lemma end_lines_long (w k : nat) (pre : ReadCsv.table)
    (row : list string) (post : ReadCsv.table) :
  Forall (fun r => length r <= w) pre ->
  w < length row ->
  ReadCsv.end_lines w k (pre ++ row :: post)
  = inr (ReadCsv.ParserError w (k + length pre) (length row)).
Proof.
  intros H Hrow. revert k. induction H as [|r pre Hr _ IH]; intro k.
  - destruct row as [|x row]; [cbn [length] in Hrow; lia|].
    rewrite app_nil_l. cbn [ReadCsv.end_lines].
    destruct (Nat.ltb_spec w (length (x :: row))) as [_|Hge]; [|lia].
    cbn [length]. rewrite Nat.add_0_r. reflexivity.
  - rewrite <- app_comm_cons. destruct r as [|y r].
    + cbn [ReadCsv.end_lines]. rewrite IH. cbn [length].
      rewrite Nat.add_succ_comm. reflexivity.
    + cbn [ReadCsv.end_lines].
      destruct (Nat.ltb_spec w (length (y :: r))) as [Hlt|_]; [lia|].
      rewrite IH. cbn [length]. rewrite Nat.add_succ_comm. reflexivity.
Qed.

Lemma tokenize_short (header : list string) (k : nat)
    (data : ReadCsv.table) :
  Forall (fun row => length row <= length header) data ->
  ReadCsv.tokenize header k data
  = inl (map (ReadCsv.pad (length header)) (nonblank data)).
Proof.
  intro H. revert k. induction H as [|first rest Hfirst Hrest IH]; intro k.
  - reflexivity.
  - destruct first as [|x first]; [exact (IH (S k))|].
    cbn [ReadCsv.tokenize nonblank filter blank negb map].
    rewrite Nat.max_l by exact Hfirst.
    rewrite end_lines_short by exact Hrest. reflexivity.
Qed.

(** Blank lines before the first data line, or before the header, are
    passed over and counted. *)
Lemma tokenize_blank (header : list string) (k : nat)
    (blanks data : ReadCsv.table) :
  Forall (fun row => row = []) blanks ->
  ReadCsv.tokenize header k (blanks ++ data)
  = ReadCsv.tokenize header (k + length blanks) data.
Proof.
  intro H. revert k. induction H as [|b blanks Hb _ IH]; intro k.
  - rewrite app_nil_l. cbn [length]. rewrite Nat.add_0_r. reflexivity.
  - subst b. rewrite <- app_comm_cons. cbn [ReadCsv.tokenize length].
    rewrite IH, Nat.add_succ_comm. reflexivity.
Qed.

Lemma read_lines_blank (k : nat) (blanks lines : ReadCsv.table) :
  Forall (fun row => row = []) blanks ->
  ReadCsv.read_lines infer k (blanks ++ lines)
  = ReadCsv.read_lines infer (k + length blanks) lines.
Proof.
  intro H. revert k. induction H as [|b blanks Hb _ IH]; intro k.
  - rewrite app_nil_l. cbn [length]. rewrite Nat.add_0_r. reflexivity.
  - subst b. rewrite <- app_comm_cons. cbn [ReadCsv.read_lines length].
    rewrite IH, Nat.add_succ_comm. reflexivity.
Qed.

Lemma read_lines_header (k : nat) (header : list string)
    (data : ReadCsv.table) :
  header <> [] ->
  ReadCsv.read_lines infer k (header :: data)
  = match ReadCsv.tokenize header (S k) data with
    | inl t => inl (ReadCsv.frame_of infer header t)
    | inr e => inr e
    end.
Proof. intro H. destruct header; [congruence|reflexivity]. Qed.

Lemma tokenize_first (header first : list string) (k : nat)
    (rest : ReadCsv.table) :
  first <> [] ->
  ReadCsv.tokenize header k (first :: rest)
  = match ReadCsv.end_lines (Nat.max (length header) (length first))
                            (S k) rest with
    | inl t => inl (ReadCsv.pad (Nat.max (length header) (length first))
                                first :: t)
    | inr e => inr e
    end.
Proof. intro H. destruct first; [congruence|reflexivity]. Qed.

Lemma width_padded (header : list string) (data : ReadCsv.table) :
  Forall (fun row => length row <= length header) data ->
  ReadCsv.width header (map (ReadCsv.pad (length header)) data)
  = length header.
Proof.
  intro H. destruct H as [|first rest Hfirst _]; [reflexivity|].
  cbn [map ReadCsv.width]. apply length_pad, Hfirst.
Qed.

Lemma nonblank_short (w : nat) (data : ReadCsv.table) :
  Forall (fun row => length row <= w) data ->
  Forall (fun row => length row <= w) (nonblank data).
Proof.
  intro H. unfold nonblank. rewrite Forall_forall in *.
  intros row Hin. apply filter_In in Hin. apply H, Hin.
Qed.

Lemma nth_error_map_seq {A} (f : nat -> A) (n j : nat) :
  j < n -> nth_error (map f (seq 0 n)) j = Some (f j).
Proof.
  intro H. rewrite nth_error_map, nth_error_seq.
  destruct (Nat.ltb_spec j n) as [_|Hge]; [reflexivity|lia].
Qed.

End Lines.

(** C7, as it is worded, fails.  The second data line of [short.csv] has
    one field where the header has two; [read_csv] does not fail on it:
    the line is loaded with its last cell missing. *)
Lemma short_line_is_loaded :
  open_csv Example.world "short.csv"
  = inl [["ID"; "Department"]; ["1"; "HR"]; ["2"]]
  /\ Spec.inconsistent [["ID"; "Department"]; ["1"; "HR"]; ["2"]] = true
  /\ pd_read_csv Example.world "short.csv"
     = inl [("ID", [PyInt 1; PyInt 2]); ("Department", [PyStr "HR"; NaN])]
  /\ ~ (forall (w : World) path lines,
          open_csv w path = inl lines ->
          Spec.inconsistent lines = true ->
          exists e, pd_read_csv w path = inr e).
Proof.
  split; [reflexivity|]. split; [reflexivity|]. split; [reflexivity|].
  intro H.
  destruct (H Example.world "short.csv" _ eq_refl eq_refl) as [e He].
  vm_compute in He. discriminate He.
Qed.

(** C7, amended.  Loading does not fail on data lines with fewer fields
    than the header: each is completed up to the header's width, and the
    cells of the fields it lacks are absent.  Loading fails, with pandas'
    [ParserError], on a data line after the first that has more fields
    than both the header and the first data line; the error names the
    line by its number in the file, blank lines counted. *)
Theorem short_lines_padded_long_lines_rejected
    (infer : list (option string) -> list cell) (header : list string) :
  keeps_absence infer ->
  header <> [] ->
  (forall blanks data,
     Forall (fun row => row = []) blanks ->
     Forall (fun row => length row <= length header) data ->
     ReadCsv.read_table infer (blanks ++ header :: data)
     = inl (ReadCsv.frame_of infer header
              (map (ReadCsv.pad (length header)) (nonblank data)))
     /\ forall i row j,
          nth_error (nonblank data) i = Some row ->
          length row <= j -> j < length header ->
          exists c,
            cell_at (ReadCsv.frame_of infer header
                       (map (ReadCsv.pad (length header)) (nonblank data)))
                    j i
            = Some c
            /\ isna c = true)
  /\ (forall blanks between first pre row post,
        Forall (fun r => r = []) blanks ->
        Forall (fun r => r = []) between ->
        first <> [] ->
        Forall (fun r => length r <= Nat.max (length header) (length first))
               pre ->
        Nat.max (length header) (length first) < length row ->
        ReadCsv.read_table infer
          (blanks ++ header :: between ++ first :: pre ++ row :: post)
        = inr (ReadCsv.ParserError
                 (Nat.max (length header) (length first))
                 (length blanks + length between + length pre + 3)
                 (length row))).
Proof.
  intros Hinfer Hheader. split.
  - intros blanks data Hblanks Hdata. split.
    + unfold ReadCsv.read_table.
      rewrite read_lines_blank by exact Hblanks.
      rewrite read_lines_header by exact Hheader.
      rewrite tokenize_short by exact Hdata. reflexivity.
    + intros i row j Hrow Hj Hjh.
      pose proof (nonblank_short _ _ Hdata) as Hshort.
      unfold cell_at, ReadCsv.frame_of.
      rewrite width_padded by exact Hshort. rewrite Nat.sub_diag.
      rewrite nth_error_map_seq by exact Hjh. cbn [snd Nat.add].
      set (col := map (fun r => ReadCsv.na_filter (nth j r ""))
                      (map (ReadCsv.pad (length header)) (nonblank data))).
      assert (Hcol : nth_error col i = Some None).
      { unfold col. rewrite map_map, nth_error_map, Hrow.
        cbn [option_map]. rewrite nth_pad by exact Hj. reflexivity. }
      pose proof (f_equal (fun l => nth_error l i) (Hinfer col)) as Hi.
      cbn beta in Hi. rewrite !nth_error_map, Hcol in Hi.
      destruct (nth_error (infer col) i) as [c|]; [|discriminate Hi].
      exists c. split; [reflexivity|].
      cbn [option_map] in Hi. injection Hi as Hi. exact Hi.
  - intros blanks between first pre row post Hb1 Hb2 Hfirst Hpre Hrow.
    unfold ReadCsv.read_table.
    rewrite read_lines_blank by exact Hb1.
    rewrite read_lines_header by exact Hheader.
    rewrite tokenize_blank by exact Hb2.
    rewrite tokenize_first by exact Hfirst.
    rewrite (end_lines_long _ _ pre row post Hpre Hrow).
    replace (S (S (1 + length blanks) + length between) + length pre)
      with (length blanks + length between + length pre + 3) by lia.
    reflexivity.
Qed.

(** A blank line is passed over and counted: the long line of this file is
    its fourth. *)
Example long_line_after_blank_line :
  ReadCsv.read_table ReadCsv.object_dtype
    [["ID"; "Department"]; ["1"; "HR"]; []; ["2"; "IT"; "x"]]
  = inr (Exception "ParserError"
           ("Error tokenizing data. C error: Expected 2 fields in line 4, "
            ++ "saw 3" ++ String "010"%char "")).
Proof. reflexivity. Qed.

Lemma object_dtype_keeps_absence : keeps_absence ReadCsv.object_dtype.
Proof.
  intro col. unfold ReadCsv.object_dtype. rewrite map_map.
  apply map_ext. intros [t|]; reflexivity.
Qed.

Lemma short_lines_padded_long_lines_rejected_witness :
  keeps_absence ReadCsv.object_dtype
  /\ ["ID"; "Department"] <> []
  /\ Forall (fun row => length row <= length ["ID"; "Department"])
            [["1"; "HR"]; []; ["2"]]
  /\ ReadCsv.read_table ReadCsv.object_dtype
       [[]; ["ID"; "Department"]; ["1"; "HR"]; []; ["2"]]
     = inl [("ID", [PyStr "1"; PyStr "2"]);
            ("Department", [PyStr "HR"; NaN])].
Proof.
  split; [exact object_dtype_keeps_absence|].
  split; [discriminate|].
  assert (H : Forall (fun row => length row <= length ["ID"; "Department"])
                     [["1"; "HR"]; []; ["2"]]).
  { repeat constructor. }
  split; [exact H|].
  exact (eq_trans
           (proj1 (proj1 (short_lines_padded_long_lines_rejected
                            ReadCsv.object_dtype ["ID"; "Department"]
                            object_dtype_keeps_absence
                            ltac:(discriminate))
                         [[]] [["1"; "HR"]; []; ["2"]]
                         ltac:(repeat constructor) H))
           eq_refl).
Defined.

(* ===================================================================== *)
(** ** The labels of a loaded frame *)
(* ===================================================================== *)

Lemma update_same (i : nat) (l : list string) :
  ReadCsv.update i (nth i l "") l = l.
Proof.
  revert i. induction l as [|x l IH]; intro i; [destruct i; reflexivity|].
  destruct i as [|i]; [reflexivity|].
  cbn [ReadCsv.update nth]. rewrite IH. reflexivity.
Qed.

Lemma length_update (i : nat) (x : string) (l : list string) :
  length (ReadCsv.update i x l) = length l.
Proof.
  revert i. induction l as [|y l IH]; intro i; [destruct i; reflexivity|].
  destruct i as [|i]; [reflexivity|].
  cbn [ReadCsv.update length]. rewrite IH. reflexivity.
Qed.

Lemma length_dedup_column (st : list string * list (string * nat))
    (i : nat) :
  length (fst (ReadCsv.dedup_column st i)) = length (fst st).
Proof.
  unfold ReadCsv.dedup_column.
  destruct (ReadCsv.dedup_loop _ _ _ _ _ _) as [[col cur] counts].
  cbn [fst]. apply length_update.
Qed.

Lemma length_fold_dedup (idx : list nat)
    (st : list string * list (string * nat)) :
  length (fst (fold_left ReadCsv.dedup_column idx st)) = length (fst st).
Proof.
  revert st. induction idx as [|i idx IH]; intro st; [reflexivity|].
  cbn [fold_left]. rewrite IH. apply length_dedup_column.
Qed.

(** The labels are as many as the header fields. *)
Lemma length_column_names (header : list string) :
  length (ReadCsv.column_names header) = length header.
Proof.
  unfold ReadCsv.column_names. rewrite length_fold_dedup.
  cbn [fst]. rewrite length_map, length_seq. reflexivity.
Qed.

(** A name not given yet is kept. *)
Lemma dedup_column_fresh (h : list string) (counts : list (string * nat))
    (i : nat) :
  ReadCsv.count_of counts (nth i h "") = 0 ->
  ReadCsv.dedup_column (h, counts) i = (h, (nth i h "", 1) :: counts).
Proof.
  intro H. unfold ReadCsv.dedup_column. cbn [fst snd].
  rewrite H. cbn [ReadCsv.dedup_loop Nat.eqb].
  rewrite update_same. reflexivity.
Qed.

Lemma fold_dedup_distinct (h : list string) (idx : list nat)
    (counts : list (string * nat)) :
  NoDup (map (fun i => nth i h "") idx) ->
  (forall i, In i idx -> ReadCsv.count_of counts (nth i h "") = 0) ->
  fst (fold_left ReadCsv.dedup_column idx (h, counts)) = h.
Proof.
  revert counts. induction idx as [|i idx IH]; intros counts Hnd Hc;
    [reflexivity|].
  cbn [fold_left]. rewrite dedup_column_fresh by (apply Hc; left; reflexivity).
  cbn [map] in Hnd. apply NoDup_cons_iff in Hnd. destruct Hnd as [Hni Hnd].
  apply IH; [exact Hnd|].
  intros j Hj. cbn [ReadCsv.count_of].
  destruct (String.eqb_spec (nth i h "") (nth j h "")) as [Heq|_].
  - exfalso. apply Hni. rewrite Heq. apply in_map_iff. exists j. auto.
  - apply Hc. right. exact Hj.
Qed.

Lemma map_nth_positions (l : list string) :
  map (fun i => nth i l "") (seq 0 (length l)) = l.
Proof.
  induction l as [|x l IH]; [reflexivity|].
  cbn [length seq map nth]. f_equal.
  rewrite <- seq_shift, map_map. exact IH.
Qed.

Lemma filter_none {A} (p : A -> bool) (l : list A) :
  (forall x, In x l -> p x = false) -> filter p l = [].
Proof.
  induction l as [|x l IH]; intro H; [reflexivity|].
  cbn [filter]. rewrite (H x) by (left; reflexivity).
  apply IH. intros y Hy. apply H. right. exact Hy.
Qed.

(** Header fields that are distinct and not empty are the labels. *)
Lemma column_names_kept (header : list string) :
  NoDup header -> ~ In "" header ->
  ReadCsv.column_names header = header.
Proof.
  intros Hnd Hne. unfold ReadCsv.column_names.
  assert (Hnamed : forall i, In i (seq 0 (length header)) ->
                             String.eqb (nth i header "") "" = false).
  { intros i Hi. apply in_seq in Hi. apply String.eqb_neq. intro Heq.
    apply Hne. rewrite <- Heq. apply nth_In. lia. }
  assert (H1 : filter (fun i => negb (String.eqb (nth i header "") ""))
                      (seq 0 (length header))
               = seq 0 (length header)).
  { apply forallb_filter_id. apply forallb_forall. intros i Hi.
    rewrite (Hnamed i Hi). reflexivity. }
  assert (H2 : filter (fun i => String.eqb (nth i header "") "")
                      (seq 0 (length header)) = []).
  { apply filter_none. exact Hnamed. }
  assert (H3 : map (fun i => ReadCsv.unnamed i (nth i header ""))
                   (seq 0 (length header)) = header).
  { transitivity (map (fun i => nth i header "") (seq 0 (length header)));
      [|apply map_nth_positions].
    apply map_ext_in. intros i Hi. unfold ReadCsv.unnamed.
    rewrite (Hnamed i Hi). reflexivity. }
  rewrite H1, H2, H3, app_nil_r.
  apply fold_dedup_distinct; [|reflexivity].
  rewrite map_nth_positions. exact Hnd.
Qed.

(** Repeated and empty header fields, as [read_csv] names them. *)
Example column_names_of_repeats :
  ReadCsv.column_names ["a"; "a"] = ["a"; "a.1"]
  /\ ReadCsv.column_names ["a"; "a"; "a"] = ["a"; "a.1"; "a.2"]
  /\ ReadCsv.column_names ["a"; "b"; ""] = ["a"; "b"; "Unnamed: 2"]
  /\ ReadCsv.column_names ["a"; ""; "a"; "a.1"; ""]
     = ["a"; "Unnamed: 1"; "a.2"; "a.1"; "Unnamed: 4"].
Proof. repeat split. Qed.

(** *** The renaming loop ends within its bound *)

Lemma str_of_nat_inj (a b : nat) : str_of_nat a = str_of_nat b -> a = b.
Proof.
  unfold str_of_nat. intro H.
  apply (f_equal NilEmpty.uint_of_string) in H.
  rewrite !NilEmpty.usu in H. injection H as H.
  apply (f_equal Nat.of_uint) in H.
  rewrite !DecimalNat.Unsigned.of_to in H. exact H.
Qed.

Lemma append_inj_l (p a b : string) :
  (p ++ a)%string = (p ++ b)%string -> a = b.
Proof.
  induction p as [|c p IH]; cbn [String.append]; intro H; [exact H|].
  injection H as H. apply IH, H.
Qed.

Lemma length_append (a b : string) :
  String.length (a ++ b) = String.length a + String.length b.
Proof.
  induction a as [|c a IH]; [reflexivity|].
  cbn [String.append String.length]. rewrite IH. reflexivity.
Qed.

(** The numbered names of one name differ from it and from each other. *)
Lemma numbered_neq (old : string) (j : nat) :
  (old ++ "." ++ str_of_nat j)%string <> old.
Proof.
  intro H. apply (f_equal String.length) in H.
  rewrite !length_append in H. cbn [String.length] in H. lia.
Qed.

Lemma numbered_inj (old : string) (a b : nat) :
  (old ++ "." ++ str_of_nat a)%string = (old ++ "." ++ str_of_nat b)%string ->
  a = b.
Proof.
  intro H. apply append_inj_l in H. cbn [String.append] in H.
  injection H as H. apply str_of_nat_inj, H.
Qed.

(** As many numbered names as the header holds in a row are no more than
    its fields. *)
Lemma numbered_run_bounded (th : list string) (old : string) (c0 n : nat) :
  (forall j, c0 <= j < c0 + n ->
             In (old ++ "." ++ str_of_nat j)%string th) ->
  n <= length th.
Proof.
  intro H.
  assert (Hle : length (map (fun j => (old ++ "." ++ str_of_nat j)%string)
                            (seq c0 n))
                <= length th).
  { apply NoDup_incl_length.
    - apply NoDup_map_NoDup_ForallPairs; [|apply seq_NoDup].
      intros a b _ _ Hab. apply (numbered_inj old), Hab.
    - intros x Hx. apply in_map_iff in Hx. destruct Hx as [j [<- Hj]].
      apply in_seq in Hj. apply H. lia. }
  rewrite length_map, length_seq in Hle. exact Hle.
Qed.

Lemma existsb_eqb_In (x : string) (l : list string) :
  existsb (String.eqb x) l = true <-> In x l.
Proof.
  rewrite existsb_exists. split.
  - intros [y [Hy Heq]]. apply String.eqb_eq in Heq. subst y. exact Hy.
  - intro H. exists x. split; [exact H|apply String.eqb_refl].
Qed.

(** The loop, run from a count [c] reached through the numbered names
    [c0 .. c-1] that the header holds: it ends with a count of 0, and it
    counts no name but [old_col]. *)
Lemma dedup_loop_ends (th : list string) (old : string) (c0 : nat) :
  forall (fuel : nat) (col : string) (c : nat)
         (counts : list (string * nat)),
    (forall k, ReadCsv.count_of counts k <> 0 -> In k th) ->
    In old th ->
    c0 <= c ->
    (forall j, c0 <= j < c -> In (old ++ "." ++ str_of_nat j)%string th) ->
    length th + 2 <= fuel + (c - c0) ->
    snd (fst (ReadCsv.dedup_loop fuel th old col c counts)) = 0
    /\ forall k, ReadCsv.count_of
                   (snd (ReadCsv.dedup_loop fuel th old col c counts)) k <> 0 ->
                 ReadCsv.count_of counts k <> 0 \/ (k = old /\ c <> 0).
Proof.
  induction fuel as [|fuel IH]; intros col c counts Hcounts Hold Hc Hrun Hfuel.
  - exfalso.
    pose proof (numbered_run_bounded th old c0 (c - c0)) as Hb.
    assert (c - c0 <= length th).
    { apply Hb. intros j Hj. apply Hrun. lia. }
    lia.
  - cbn [ReadCsv.dedup_loop].
    destruct (Nat.eqb_spec c 0) as [->|Hc0].
    + cbn [fst snd]. split; [reflexivity|]. intros k Hk. left. exact Hk.
    + set (col' := (old ++ "." ++ str_of_nat c)%string).
      assert (Hcounts' : forall k,
                 ReadCsv.count_of ((old, S c) :: counts) k <> 0 -> In k th).
      { intros k. cbn [ReadCsv.count_of].
        destruct (String.eqb_spec old k) as [<-|_]; [intros _; exact Hold|].
        apply Hcounts. }
      assert (Hstep : forall k,
                 ReadCsv.count_of ((old, S c) :: counts) k <> 0 ->
                 ReadCsv.count_of counts k <> 0 \/ (k = old /\ c <> 0)).
      { intros k. cbn [ReadCsv.count_of].
        destruct (String.eqb_spec old k) as [<-|_].
        - intros _. right. split; [reflexivity|exact Hc0].
        - intro Hk. left. exact Hk. }
      destruct (existsb (String.eqb col') th) eqn:Hin.
      * apply existsb_eqb_In in Hin.
        destruct (IH col' (S c) ((old, S c) :: counts) Hcounts' Hold)
          as [Hend Hkeys].
        { lia. }
        { intros j Hj. destruct (Nat.eq_dec j c) as [->|Hne];
            [exact Hin|apply Hrun; lia]. }
        { lia. }
        split; [exact Hend|].
        intros k Hk. destruct (Hkeys k Hk) as [Hk'|[-> _]].
        -- apply Hstep, Hk'.
        -- right. split; [reflexivity|exact Hc0].
      * assert (Hzero : ReadCsv.count_of ((old, S c) :: counts) col' = 0).
        { destruct (Nat.eq_dec
                      (ReadCsv.count_of ((old, S c) :: counts) col') 0)
            as [Hz|Hnz]; [exact Hz|].
          exfalso. apply Hcounts' in Hnz.
          apply existsb_eqb_In in Hnz. rewrite Hnz in Hin.
          discriminate Hin. }
        rewrite Hzero.
        destruct fuel as [|fuel']; cbn [ReadCsv.dedup_loop Nat.eqb fst snd];
          (split; [reflexivity|]); intros k Hk; apply Hstep, Hk.
Qed.

Lemma nth_error_update_same (i : nat) (x : string) (l : list string) :
  i < length l -> nth_error (ReadCsv.update i x l) i = Some x.
Proof.
  revert i. induction l as [|y l IH]; intros i Hi; [cbn in Hi; lia|].
  destruct i as [|i]; [reflexivity|].
  cbn [ReadCsv.update nth_error]. apply IH. cbn [length] in Hi. lia.
Qed.

Lemma nth_error_update_other (i p : nat) (x : string) (l : list string) :
  p <> i -> nth_error (ReadCsv.update i x l) p = nth_error l p.
Proof.
  revert i p. induction l as [|y l IH]; intros i p Hp;
    [destruct i; reflexivity|].
  destruct i as [|i]; destruct p as [|p]; try reflexivity; [congruence|].
  cbn [ReadCsv.update nth_error]. apply IH. congruence.
Qed.

(** One turn of the renaming: its loop ends with a count of 0, and the
    names counted are still where they were given. *)
Lemma dedup_column_ends (st : list string * list (string * nat))
    (done : list nat) (i : nat) :
  counted_at st done ->
  ~ In i done ->
  i < length (fst st) ->
  loop_ends st i /\ counted_at (ReadCsv.dedup_column st i) (i :: done).
Proof.
  intros Hinv Hi Hlen. destruct st as [th counts]. cbn [fst snd] in *.
  set (old := nth i th "").
  assert (Hold : In old th) by (apply nth_In; exact Hlen).
  assert (Hcounts : forall k, ReadCsv.count_of counts k <> 0 -> In k th).
  { intros k Hk. destruct (Hinv k Hk) as [p [_ Hp]].
    apply nth_error_In in Hp. exact Hp. }
  destruct (dedup_loop_ends th old (ReadCsv.count_of counts old)
              (S (S (length th))) old (ReadCsv.count_of counts old) counts
              Hcounts Hold (le_n _))
    as [Hend Hkeys].
  { intros j Hj. lia. }
  { lia. }
  split; [exact Hend|].
  unfold ReadCsv.dedup_column. cbn [fst snd]. fold old.
  destruct (ReadCsv.dedup_loop (S (S (length th))) th old old
              (ReadCsv.count_of counts old) counts)
    as [[col' c'] counts'] eqn:Hloop.
  cbn [fst snd] in *.
  intros k. cbn [snd fst ReadCsv.count_of].
  destruct (String.eqb_spec col' k) as [<-|Hne].
  - intros _. exists i. split; [left; reflexivity|].
    apply nth_error_update_same, Hlen.
  - intro Hk. apply Hkeys in Hk.
    assert (Hk' : ReadCsv.count_of counts k <> 0).
    { destruct Hk as [Hk|[-> Hc]]; [exact Hk|exact Hc]. }
    destruct (Hinv k Hk') as [p [Hp Hnth]].
    exists p. split; [right; exact Hp|].
    rewrite nth_error_update_other; [exact Hnth|].
    intros ->. apply Hi, Hp.
Qed.

Lemma fold_dedup_ends (order : list nat) :
  forall (st : list string * list (string * nat)) (done : list nat),
    counted_at st done ->
    NoDup order ->
    (forall i, In i order -> ~ In i done /\ i < length (fst st)) ->
    forall pre i post,
      order = pre ++ i :: post ->
      loop_ends (fold_left ReadCsv.dedup_column pre st) i.
Proof.
  induction order as [|j order IH]; intros st done Hinv Hnd Hord pre i post E.
  - destruct pre; discriminate E.
  - destruct (Hord j (or_introl eq_refl)) as [Hj Hlen].
    destruct (dedup_column_ends st done j Hinv Hj Hlen) as [Hend Hinv'].
    destruct pre as [|j' pre].
    + cbn [app] in E. injection E as <- _. exact Hend.
    + cbn [app] in E. injection E as <- E. cbn [fold_left].
      apply NoDup_cons_iff in Hnd. destruct Hnd as [Hnj Hnd].
      apply (IH _ (j :: done) Hinv' Hnd) with (post := post); [|exact E].
      intros k Hk. destruct (Hord k (or_intror Hk)) as [Hkd Hkl].
      split.
      * intros [<-|Hin]; [exact (Hnj Hk)|exact (Hkd Hin)].
      * rewrite length_dedup_column. exact Hkl.
Qed.

Lemma NoDup_filter_split {A} (p : A -> bool) (l : list A) :
  NoDup l ->
  NoDup (filter (fun x => negb (p x)) l ++ filter p l).
Proof.
  induction l as [|x l IH]; intro H; [constructor|].
  apply NoDup_cons_iff in H. destruct H as [Hx Hl].
  specialize (IH Hl). cbn [filter].
  destruct (p x); cbn [negb].
  - apply NoDup_Add with (a := x) (l := filter (fun y => negb (p y)) l
                                          ++ filter p l).
    + apply Add_app.
    + split; [exact IH|].
      intro Hin. apply in_app_or in Hin.
      destruct Hin as [Hin|Hin]; apply filter_In in Hin; apply Hx, Hin.
  - cbn [app]. constructor; [|exact IH].
    intro Hin. apply in_app_or in Hin.
    destruct Hin as [Hin|Hin]; apply filter_In in Hin; apply Hx, Hin.
Qed.

(** In [column_names], every turn's loop ends on its own condition: the
    bound on its turns is never what stops it. *)
Lemma column_names_loops_end (header : list string)
    (pre : list nat) (i : nat) (post : list nat) :
  filter (fun i => negb (String.eqb (nth i header "") ""))
         (seq 0 (length header))
  ++ filter (fun i => String.eqb (nth i header "") "")
            (seq 0 (length header))
  = pre ++ i :: post ->
  loop_ends (fold_left ReadCsv.dedup_column pre
               (map (fun i => ReadCsv.unnamed i (nth i header ""))
                    (seq 0 (length header)), []))
            i.
Proof.
  intro E.
  refine (fold_dedup_ends _ _ [] _ _ _ pre i post E).
  - intros k Hk. exfalso. apply Hk. reflexivity.
  - apply NoDup_filter_split, seq_NoDup.
  - intros j Hj. split; [intros []|].
    cbn [fst]. rewrite length_map, length_seq.
    apply in_app_or in Hj.
    destruct Hj as [Hj|Hj]; apply filter_In in Hj; destruct Hj as [Hj _];
      apply in_seq in Hj; lia.
Qed.

(* ===================================================================== *)
(** ** Edge cases of loading *)
(* ===================================================================== *)

Lemma keeps_absence_length (infer : list (option string) -> list cell)
    (col : list (option string)) :
  keeps_absence infer -> length (infer col) = length col.
Proof.
  intro H. rewrite <- (length_map isna), (H col). apply length_map.
Qed.

Lemma keeps_absence_nil (infer : list (option string) -> list cell) :
  keeps_absence infer -> infer [] = [].
Proof.
  intro H. apply length_zero_iff_nil.
  rewrite (keeps_absence_length _ _ H). reflexivity.
Qed.

Lemma map_nth_seq {A B} (f : A -> B) (l : list A) (d : A) :
  map (fun j => f (nth j l d)) (seq 0 (length l)) = map f l.
Proof.
  induction l as [|x l IH]; [reflexivity|].
  cbn [length seq map nth]. f_equal.
  rewrite <- seq_shift, map_map. exact IH.
Qed.

Lemma example_infer_keeps_absence : keeps_absence Example.infer.
Proof.
  intro col. unfold Example.infer.
  destruct (forallb _ col) eqn:Hall.
  - rewrite map_map. apply map_ext_in. intros t Hin.
    rewrite forallb_forall in Hall. specialize (Hall t Hin).
    destruct (Example.int_of_token t) eqn:Ht; [|discriminate Hall].
    destruct t; [reflexivity|discriminate Ht].
  - unfold ReadCsv.object_dtype. rewrite map_map.
    apply map_ext. intros [t|]; reflexivity.
Qed.

Lemma shr_1_nonneg (mrs : shr_record) :
  (0 <= shr_m mrs)%Z -> (0 <= shr_m (shr_1 mrs))%Z.
Proof.
  destruct mrs as [m r s]. cbn [shr_m]. intro H.
  destruct m as [|p|p]; [cbn; lia| |lia].
  destruct p; cbn; lia.
Qed.

Lemma iter_shr_1_nonneg (p : positive) (mrs : shr_record) :
  (0 <= shr_m mrs)%Z -> (0 <= shr_m (iter_pos shr_1 p mrs))%Z.
Proof.
  revert mrs. induction p as [p IH|p IH|]; intros mrs H; cbn [iter_pos].
  - apply IH, IH, shr_1_nonneg, H.
  - apply IH, IH, H.
  - apply shr_1_nonneg, H.
Qed.

Lemma shr_fexp_nonneg (prec emax m e : Z) (l : location) :
  (0 <= m)%Z -> (0 <= shr_m (fst (shr_fexp prec emax m e l)))%Z.
Proof.
  intro H. unfold shr_fexp, shr.
  assert (H0 : (0 <= shr_m (shr_record_of_loc m l))%Z).
  { unfold shr_record_of_loc. destruct l as [|[| |]]; cbn [shr_m]; exact H. }
  destruct (fexp prec emax (Zdigits2 m + e) - e)%Z; cbn [fst];
    try exact H0.
  apply iter_shr_1_nonneg, H0.
Qed.

Lemma round_nearest_even_nonneg (m : Z) (l : location) :
  (0 <= m)%Z -> (0 <= round_nearest_even m l)%Z.
Proof.
  intro H. unfold round_nearest_even.
  destruct l as [|[| |]]; try lia. destruct (Z.even m); lia.
Qed.

Lemma binary_round_aux_not_nan (prec emax : Z) (sx : bool) (mx ex : Z)
    (lx : location) :
  (0 <= mx)%Z -> binary_round_aux prec emax sx mx ex lx <> S754_nan.
Proof.
  intro H. unfold binary_round_aux.
  pose proof (shr_fexp_nonneg prec emax mx ex lx H) as H1.
  destruct (shr_fexp prec emax mx ex lx) as [mrs' e']. cbn [fst] in H1.
  pose proof (shr_fexp_nonneg prec emax _ e' loc_Exact
                (round_nearest_even_nonneg _ (loc_of_shr_record mrs') H1))
    as H2.
  destruct (shr_fexp prec emax _ e' loc_Exact) as [mrs'' e''].
  cbn [fst] in H2.
  destruct (shr_m mrs'') as [|p|p]; [discriminate| |lia].
  destruct (Z.leb e'' (emax - prec)); discriminate.
Qed.

Lemma binary_normalize_not_nan (prec emax m e : Z) (szero : bool) :
  binary_normalize prec emax m e szero <> S754_nan.
Proof.
  unfold binary_normalize, binary_round.
  destruct m as [|p|p]; [discriminate| |];
    destruct (shl_align _ _ _) as [mz ez];
    apply binary_round_aux_not_nan; lia.
Qed.

Lemma float_of_Z_present (z : Z) : isna (PyFloat (Pandas3.float_of_Z z)) = false.
Proof.
  unfold Pandas3.float_of_Z.
  pose proof (binary_normalize_not_nan 53 1024 z 0 false) as H.
  destruct (binary_normalize 53 1024 z 0 false); congruence || reflexivity.
Qed.

Lemma pandas3_infer_keeps_absence : keeps_absence Pandas3.infer.
Proof.
  intro col. unfold Pandas3.infer.
  destruct (forallb _ col) eqn:Hall.
  - assert (Hint : forall t, In t col ->
                     match t with
                     | Some _ => exists z, Example.int_of_token t = Some z
                     | None => Example.int_of_token t = None
                     end).
    { intros t Hin. rewrite forallb_forall in Hall. specialize (Hall t Hin).
      destruct t as [tok|]; [|reflexivity].
      destruct (Example.int_of_token (Some tok)) as [z|];
        [exists z; reflexivity|discriminate Hall]. }
    destruct (forallb (fun t : option string =>
                         match t with Some _ => true | None => false end)
                      col);
      rewrite map_map; apply map_ext_in;
      intros t Hin; specialize (Hint t Hin);
      (destruct t as [tok|];
       [destruct Hint as [z Hz]; rewrite Hz;
        try reflexivity; apply float_of_Z_present
       |reflexivity]).
  - unfold ReadCsv.object_dtype. rewrite map_map.
    apply map_ext. intros [t|]; reflexivity.
Qed.

(** X1. A file with no line at all is a fault like any other: the run
    logs the start record and one ERROR record with pandas' "No columns
    to parse from file", reads the clock once, leaves [df] unbound and
    returns [None]. *)
Theorem empty_file_is_logged_as_error (sc : script) (w : World)
    (file_path : string) (s : state) :
  open_csv w file_path = inl [] ->
  returned sc w file_path s = inl PyNone
  /\ emitted sc w file_path s
     = [start_record sc file_path;
        error_record sc file_path ReadCsv.EmptyDataError]
  /\ contains (message (error_record sc file_path ReadCsv.EmptyDataError))
              "No columns to parse from file"
  /\ df (final sc w file_path s) = None
  /\ clock_reads (final sc w file_path s) = S (clock_reads s).
Proof.
  intro Hopen.
  assert (Hread : pd_read_csv w file_path = inr ReadCsv.EmptyDataError).
  { unfold pd_read_csv. rewrite Hopen. reflexivity. }
  split; [apply returned_none|].
  split; [rewrite emitted_cases, Hread; reflexivity|].
  split; [apply (error_record_content sc file_path ReadCsv.EmptyDataError)|].
  rewrite final_run. unfold run_of. rewrite Hread. split; reflexivity.
Qed.

Lemma empty_file_is_logged_as_error_witness :
  open_csv (with_file Example.world "empty.csv" []) "empty.csv" = inl []
  /\ emitted logcsvfile (with_file Example.world "empty.csv" [])
             "empty.csv" Example.fresh
     = [ {| levelname := INFO;
            message := "Starting processing for empty.csv";
            exc_info := None |};
         {| levelname := ERROR;
            message := "Error processing empty.csv: No columns to parse from file";
            exc_info := None |} ].
Proof.
  split; [reflexivity|].
  apply (proj1 (proj2 (empty_file_is_logged_as_error logcsvfile
                         (with_file Example.world "empty.csv" [])
                         "empty.csv" Example.fresh eq_refl))).
Defined.

(** X2. A file that has its header line and no data line loads as a
    frame with one column per header field and no record; the labels are
    those [read_csv] makes of the fields, which are the fields themselves
    when they are distinct and none is empty.  When the two pandas calls
    meet no fault on that frame, the run completes with the start and
    completion records only, no WARNING, and leaves the frame as
    loaded. *)
Theorem header_only_file_completes (sc : script) (w : World)
    (file_path : string) (s : state) (header : list string) :
  header <> [] ->
  open_csv w file_path = inl [header] ->
  keeps_absence (infer_dtype w) ->
  isnull_sum_fault w (map (fun l => (l, []))
                          (ReadCsv.column_names header)) = None ->
  fillna_fault w (map (fun l => (l, []))
                      (ReadCsv.column_names header)) = None ->
  pd_read_csv w file_path
  = inl (map (fun l => (l, [])) (ReadCsv.column_names header))
  /\ length (ReadCsv.column_names header) = length header
  /\ (NoDup header -> ~ In "" header ->
      ReadCsv.column_names header = header)
  /\ emitted sc w file_path s
     = [start_record sc file_path;
        done_record (float_sub (clock w (S (clock_reads s)))
                               (clock w (clock_reads s)))]
  /\ df (final sc w file_path s)
     = Some (map (fun l => (l, [])) (ReadCsv.column_names header)).
Proof.
  intros Hheader Hopen Hinfer Hcount Hfill.
  set (names := ReadCsv.column_names header) in *.
  assert (Hread : pd_read_csv w file_path
                  = inl (map (fun l => (l, @nil cell)) names)).
  { unfold pd_read_csv. rewrite Hopen. unfold ReadCsv.read_table.
    rewrite read_lines_header by exact Hheader.
    cbn [ReadCsv.tokenize]. f_equal.
    unfold ReadCsv.frame_of. cbn [map]. fold names.
    rewrite (keeps_absence_nil _ Hinfer).
    rewrite <- (length_column_names header). fold names.
    apply (map_nth_seq (fun l => (l, @nil cell)) names ""). }
  assert (Hzero : isnull_sum_sum (map (fun l => (l, @nil cell)) names) = 0).
  { rewrite isnull_sum_sum_columns, map_map. cbn [snd].
    clear. induction names as [|l names IH]; [reflexivity|].
    cbn [map]. rewrite list_sum_cons. exact IH. }
  split; [exact Hread|].
  split; [apply length_column_names|].
  split; [apply column_names_kept|].
  split.
  - rewrite emitted_cases, Hread, Hcount, Hfill, Hzero. reflexivity.
  - rewrite final_run. unfold run_of. rewrite Hread, Hcount, Hfill.
    cbn [df]. f_equal. unfold fillna. rewrite map_map. reflexivity.
Qed.

Lemma header_only_file_completes_witness :
  ["a"; "a"; ""] <> []
  /\ open_csv (with_file Pandas3.world "head.csv" [["a"; "a"; ""]])
              "head.csv" = inl [["a"; "a"; ""]]
  /\ keeps_absence
       (infer_dtype (with_file Pandas3.world "head.csv" [["a"; "a"; ""]]))
  /\ pd_read_csv (with_file Pandas3.world "head.csv" [["a"; "a"; ""]])
                 "head.csv"
     = inl [("a", []); ("a.1", []); ("Unnamed: 2", [])].
Proof.
  split; [discriminate|]. split; [reflexivity|].
  split; [exact pandas3_infer_keeps_absence|].
  exact (proj1 (header_only_file_completes logcsvfile
                  (with_file Pandas3.world "head.csv" [["a"; "a"; ""]])
                  "head.csv" Example.fresh ["a"; "a"; ""]
                  ltac:(discriminate) eq_refl
                  pandas3_infer_keeps_absence eq_refl eq_refl)).
Defined.

(* ===================================================================== *)
(** ** The count that is reported, in terms of the file *)
(* ===================================================================== *)

Section Fields.

Lemma list_sum_zero_map {A} (l : list A) :
  list_sum (map (fun _ => 0) l) = 0.
Proof. induction l; [reflexivity|assumption]. Qed.

Lemma list_sum_add_map {A} (f g : A -> nat) (l : list A) :
  list_sum (map (fun x => f x + g x) l)
  = list_sum (map f l) + list_sum (map g l).
Proof.
  induction l as [|x l IH]; [reflexivity|].
  cbn [map]. rewrite !list_sum_cons, IH. lia.
Qed.

(** A double sum taken in either order. *)
Lemma list_sum_exchange {A B} (f : A -> B -> nat) (la : list A)
    (lb : list B) :
  list_sum (map (fun a => list_sum (map (f a) lb)) la)
  = list_sum (map (fun b => list_sum (map (fun a => f a b) la)) lb).
Proof.
  induction la as [|a la IH].
  - cbn [map]. rewrite list_sum_zero_map. reflexivity.
  - cbn [map]. rewrite list_sum_cons, IH.
    rewrite <- list_sum_add_map. apply f_equal, map_ext. intro b.
    rewrite list_sum_cons. reflexivity.
Qed.

Lemma count_as_sum {A} (p : A -> bool) (l : list A) :
  length (filter p l) = list_sum (map (fun x => b2n (p x)) l).
Proof.
  induction l as [|x l IH]; [reflexivity|].
  cbn [filter map]. rewrite list_sum_cons, <- IH.
  destruct (p x); reflexivity.
Qed.

Lemma count_by_position {A} (p : A -> bool) (l : list A) (d : A) :
  length (filter p l)
  = list_sum (map (fun j => b2n (p (nth j l d))) (seq 0 (length l))).
Proof.
  rewrite count_as_sum.
  rewrite (map_nth_seq (fun x => b2n (p x)) l d). reflexivity.
Qed.

Lemma na_fields_pad (w : nat) (row : list string) :
  na_fields (ReadCsv.pad w row) = na_fields row + (w - length row).
Proof.
  unfold na_fields, ReadCsv.pad. rewrite filter_app, length_app. f_equal.
  induction (w - length row) as [|k IH]; [reflexivity|].
  cbn [repeat filter]. change (ReadCsv.is_na_token "") with true.
  cbn [length]. rewrite IH. reflexivity.
Qed.

Variable infer : list (option string) -> list cell.
Hypothesis Hinfer : keeps_absence infer.

(** A converted column has as many missing cells as its tokens say. *)
Lemma count_na_infer (tokens : list string) :
  count_na (infer (map ReadCsv.na_filter tokens))
  = length (filter ReadCsv.is_na_token tokens).
Proof.
  rewrite <- count_true_isna, Hinfer, map_map.
  rewrite !count_as_sum, map_map. apply f_equal, map_ext. intro t.
  unfold ReadCsv.na_filter. destruct (ReadCsv.is_na_token t); reflexivity.
Qed.

(** The missing cells of a frame read from lines of one width [w], the
    header's: as many as the lines have NA fields. *)
Lemma isnull_sum_sum_frame_of (header : list string) (t : ReadCsv.table) :
  Forall (fun row => length row = length header) t ->
  isnull_sum_sum (ReadCsv.frame_of infer header t)
  = list_sum (map na_fields t).
Proof.
  intro Ht.
  assert (Hw : ReadCsv.width header t = length header).
  { destruct Ht as [|row t Hrow _]; [reflexivity|exact Hrow]. }
  rewrite isnull_sum_sum_columns. unfold ReadCsv.frame_of.
  rewrite Hw, Nat.sub_diag, map_map. cbn [snd Nat.add].
  transitivity
    (list_sum
       (map (fun j =>
               list_sum (map (fun row =>
                                b2n (ReadCsv.is_na_token (nth j row "")))
                             t))
            (seq 0 (length header)))).
  { apply f_equal, map_ext. intro j.
    rewrite <- (map_map (fun row => nth j row "") ReadCsv.na_filter).
    rewrite count_na_infer, count_as_sum, map_map. reflexivity. }
  rewrite list_sum_exchange. apply f_equal, map_ext_in. intros row Hin.
  rewrite Forall_forall in Ht. rewrite <- (Ht row Hin).
  symmetry. apply count_by_position.
Qed.

Lemma frame_of_columns (header : list string) (t : ReadCsv.table) :
  labels (ReadCsv.frame_of infer header t) = ReadCsv.column_names header
  /\ Forall (fun c => length (snd c) = length t)
            (ReadCsv.frame_of infer header t).
Proof.
  unfold ReadCsv.frame_of. split.
  - unfold labels. rewrite map_map. cbn [fst].
    rewrite <- (length_column_names header).
    apply map_nth_positions.
  - rewrite Forall_forall. intros c Hin.
    apply in_map_iff in Hin. destruct Hin as [j [<- _]]. cbn [snd].
    rewrite (keeps_absence_length _ _ Hinfer). apply length_map.
Qed.

End Fields.

(** X3. For a file none of whose data lines is longer than the header,
    the frame loaded has one column per header field, under the labels
    [read_csv] makes of them, and one cell per data line that is not
    blank in every column; the number of missing values counted in it is
    the number of NA fields of those lines (the empty ones among them)
    plus the number of fields the short ones lack.  When the count meets
    no fault on the frame loaded, that number is the one in the WARNING
    record, which is logged exactly when it is not 0. *)
Theorem warned_count_is_na_fields (sc : script) (w : World)
    (file_path : string) (s : state) (header : list string)
    (data : ReadCsv.table) :
  header <> [] ->
  open_csv w file_path = inl (header :: data) ->
  keeps_absence (infer_dtype w) ->
  Forall (fun row => length row <= length header) data ->
  (forall d, pd_read_csv w file_path = inl d ->
             isnull_sum_fault w d = None) ->
  (exists d,
      pd_read_csv w file_path = inl d
      /\ labels d = ReadCsv.column_names header
      /\ length (labels d) = length header
      /\ Forall (fun c => length (snd c) = length (nonblank data)) d
      /\ isnull_sum_sum d
         = list_sum (map (fun row => na_fields row
                                     + (length header - length row))
                         (nonblank data)))
  /\ filter (has_level WARNING) (emitted sc w file_path s)
     = if Nat.ltb 0 (list_sum
                       (map (fun row => na_fields row
                                        + (length header - length row))
                            (nonblank data)))
       then [warning_record sc file_path
               (list_sum (map (fun row => na_fields row
                                          + (length header - length row))
                              (nonblank data)))]
       else [].
Proof.
  intros Hheader Hopen Hinfer Hdata Hcount.
  set (t := map (ReadCsv.pad (length header)) (nonblank data)).
  assert (Hread : pd_read_csv w file_path
                  = inl (ReadCsv.frame_of (infer_dtype w) header t)).
  { unfold pd_read_csv. rewrite Hopen. unfold ReadCsv.read_table.
    rewrite read_lines_header by exact Hheader.
    rewrite tokenize_short by exact Hdata. reflexivity. }
  pose proof (nonblank_short _ _ Hdata) as Hshort.
  assert (Ht : Forall (fun row => length row = length header) t).
  { unfold t. rewrite Forall_forall. intros row Hin.
    apply in_map_iff in Hin. destruct Hin as [r [<- Hr]].
    apply length_pad. rewrite Forall_forall in Hshort. apply Hshort, Hr. }
  assert (Hn : isnull_sum_sum (ReadCsv.frame_of (infer_dtype w) header t)
               = list_sum (map (fun row => na_fields row
                                           + (length header - length row))
                               (nonblank data))).
  { rewrite (isnull_sum_sum_frame_of _ Hinfer header t Ht).
    unfold t. rewrite map_map. apply f_equal, map_ext. intro row.
    apply na_fields_pad. }
  split.
  - exists (ReadCsv.frame_of (infer_dtype w) header t).
    split; [exact Hread|].
    destruct (frame_of_columns _ Hinfer header t) as [Hl Hc].
    split; [exact Hl|].
    split; [rewrite Hl; apply length_column_names|].
    split; [|exact Hn].
    unfold t in Hc. rewrite length_map in Hc. exact Hc.
  - rewrite emitted_cases, Hread, (Hcount _ Hread), Hn.
    destruct (Nat.ltb 0 _); destruct (fillna_fault w _);
      destruct sc; reflexivity.
Qed.

Lemma warned_count_is_na_fields_witness :
  ["ID"; "Age"] <> []
  /\ open_csv Pandas3.world "ages.csv"
     = inl [["ID"; "Age"]; ["1"; "30"]; ["2"; ""]]
  /\ keeps_absence (infer_dtype Pandas3.world)
  /\ filter (has_level WARNING)
            (emitted csv_log_processor Pandas3.world "ages.csv"
                     Example.fresh)
     = [warning_record csv_log_processor "ages.csv" 1].
Proof.
  split; [discriminate|]. split; [reflexivity|].
  split; [exact pandas3_infer_keeps_absence|].
  refine (proj2 (warned_count_is_na_fields csv_log_processor Pandas3.world
                   "ages.csv" Example.fresh ["ID"; "Age"]
                   [["1"; "30"]; ["2"; ""]]
                   ltac:(discriminate) eq_refl
                   pandas3_infer_keeps_absence _
                   (fun _ _ => eq_refl))).
  repeat constructor.
Defined.

(* ===================================================================== *)
(** ** The elapsed time in the completion record *)
(* ===================================================================== *)

Lemma all_digits_string_of_uint (u : Decimal.uint) :
  all_digits (NilEmpty.string_of_uint u) = true.
Proof. induction u; cbn; assumption || reflexivity. Qed.

Lemma string_of_uint_nonempty (u : Decimal.uint) :
  u <> Decimal.Nil -> NilEmpty.string_of_uint u <> "".
Proof. destruct u; cbn; congruence. Qed.

Lemma N_to_uint_nonnil (n : N) : N.to_uint n <> Decimal.Nil.
Proof.
  destruct n as [|p]; [discriminate|]. apply DecimalPos.Unsigned.to_uint_nonnil.
Qed.

Lemma digits_reads_back (n : Z) :
  option_map N.of_uint (NilEmpty.uint_of_string (digits n)) = Some (Z.to_N n).
Proof.
  unfold digits. rewrite NilEmpty.usu. cbn [option_map].
  rewrite DecimalN.Unsigned.of_to. reflexivity.
Qed.

Lemma two_digits_below_100 (k : Z) :
  (0 <= k < 100)%Z ->
  String.length (two_digits k) = 2
  /\ all_digits (two_digits k) = true
  /\ option_map N.of_uint (NilEmpty.uint_of_string (two_digits k))
     = Some (Z.to_N k).
Proof.
  intro Hk.
  assert (Hall :
    forallb (fun j =>
               let k := Z.of_nat j in
               Nat.eqb (String.length (two_digits k)) 2
               && all_digits (two_digits k)
               && match option_map N.of_uint
                          (NilEmpty.uint_of_string (two_digits k)) with
                  | Some v => N.eqb v (Z.to_N k)
                  | None => false
                  end)
            (seq 0 100) = true) by (vm_compute; reflexivity).
  rewrite forallb_forall in Hall.
  specialize (Hall (Z.to_nat k)).
  rewrite Z2Nat.id in Hall by lia. cbv zeta in Hall.
  assert (Hin : In (Z.to_nat k) (seq 0 100)) by (apply in_seq; lia).
  specialize (Hall Hin).
  apply andb_true_iff in Hall. destruct Hall as [Hall H3].
  apply andb_true_iff in Hall. destruct Hall as [H1 H2].
  split; [apply Nat.eqb_eq, H1|]. split; [exact H2|].
  destruct (option_map N.of_uint (NilEmpty.uint_of_string (two_digits k)))
    as [v|]; [|discriminate H3].
  apply N.eqb_eq in H3. rewrite H3. reflexivity.
Qed.

Lemma round_half_even_nearest (n d : Z) :
  (0 <= n)%Z -> (0 < d)%Z ->
  (0 <= round_half_even n d)%Z
  /\ (Z.abs (2 * n - 2 * round_half_even n d * d) <= d)%Z.
Proof.
  intros Hn Hd. unfold round_half_even.
  pose proof (Z.div_mod n d ltac:(lia)) as Hdm.
  pose proof (Z.mod_pos_bound n d Hd) as Hr.
  pose proof (Z.div_pos n d Hn Hd) as Hq.
  set (q := (n / d)%Z) in *. set (r := (n mod d)%Z) in *.
  destruct (Z.ltb_spec (2 * r) d) as [H1|H1].
  - split; [lia|]. replace (2 * n - 2 * q * d)%Z with (2 * r)%Z by lia. lia.
  - destruct (Z.ltb_spec d (2 * r)) as [H2|H2].
    + split; [lia|].
      replace (2 * n - 2 * (q + 1) * d)%Z with (2 * r - 2 * d)%Z by lia.
      lia.
    + destruct (Z.even q).
      * split; [lia|].
        replace (2 * n - 2 * q * d)%Z with (2 * r)%Z by lia. lia.
      * split; [lia|].
        replace (2 * n - 2 * (q + 1) * d)%Z with (2 * r - 2 * d)%Z by lia.
        lia.
Qed.

(** X4. The elapsed time of the completion record is written with a whole
    part and exactly two decimals, and the number written is the nearest
    hundredth to the float [m * 2^e]: exact when [e] is not negative,
    otherwise off by at most half a hundredth. *)
Theorem elapsed_printed_to_nearest_hundredth (s : bool) (m : positive)
    (e : Z) :
  (0 <= hundredths m e)%Z
  /\ (if (0 <=? e)%Z then hundredths m e = (Zpos m * 100 * 2 ^ e)%Z
      else (Z.abs (2 * (Zpos m * 100) - 2 * hundredths m e * 2 ^ (- e))
            <= 2 ^ (- e))%Z)
  /\ exists whole frac : string,
       message (done_record (S754_finite s m e))
       = ("Processing completed in " ++ (if s then "-" else "") ++ whole
          ++ "." ++ frac ++ " seconds")%string
       /\ String.length frac = 2
       /\ all_digits frac = true
       /\ all_digits whole = true
       /\ whole <> ""%string
       /\ option_map N.of_uint (NilEmpty.uint_of_string whole)
          = Some (Z.to_N (hundredths m e / 100))
       /\ option_map N.of_uint (NilEmpty.uint_of_string frac)
          = Some (Z.to_N (hundredths m e mod 100)).
Proof.
  assert (Hn : (0 <= hundredths m e)%Z
               /\ (if (0 <=? e)%Z
                   then hundredths m e = (Zpos m * 100 * 2 ^ e)%Z
                   else (Z.abs (2 * (Zpos m * 100)
                                - 2 * hundredths m e * 2 ^ (- e))
                         <= 2 ^ (- e))%Z)).
  { unfold hundredths. destruct (Z.leb_spec 0 e) as [He|He].
    - split; [|reflexivity].
      pose proof (Z.pow_nonneg 2 e ltac:(lia)). nia.
    - assert (Hd : (0 < 2 ^ (- e))%Z) by (apply Z.pow_pos_nonneg; lia).
      apply (round_half_even_nearest (Zpos m * 100) (2 ^ (- e)));
        [lia|exact Hd]. }
  destruct Hn as [Hn0 Hnear]. split; [exact Hn0|]. split; [exact Hnear|].
  destruct (two_digits_below_100 (hundredths m e mod 100))
    as [Hlen [Hdig Hval]].
  { apply Z.mod_pos_bound. lia. }
  exists (digits (hundredths m e / 100)),
         (two_digits (hundredths m e mod 100)).
  split.
  { cbn [done_record message format_2f].
    rewrite !append_assoc. reflexivity. }
  split; [exact Hlen|]. split; [exact Hdig|].
  split; [apply all_digits_string_of_uint|].
  split; [apply string_of_uint_nonempty, N_to_uint_nonnil|].
  split; [apply digits_reads_back|exact Hval].
Qed.

(* ===================================================================== *)
(** ** The two scripts side by side *)
(* ===================================================================== *)


(* ===================================================================== *)
(** ** The generated file *)
(* ===================================================================== *)

Lemma randint_ok (rng : nat -> Z) (k : nat) (low high : Z) (size : nat) :
  (low < high)%Z ->
  exists l, Numpy.randint rng k low high size = inl l
            /\ length l = size
            /\ Forall (fun v => (low <= v < high)%Z) l.
Proof.
  intro H. unfold Numpy.randint.
  destruct (Z.leb_spec high low) as [Hle|_]; [lia|].
  eexists. split; [reflexivity|]. split.
  - rewrite length_map, length_seq. reflexivity.
  - rewrite Forall_forall. intros v Hin.
    apply in_map_iff in Hin. destruct Hin as [i [<- _]].
    pose proof (Z.mod_pos_bound (rng (k + i)) (high - low) ltac:(lia)).
    lia.
Qed.

Lemma choices_ok (rng : nat -> Z) (n k : nat) (x : cell) (a : list cell) :
  exists l, choices rng k n (x :: a) = inl l
            /\ length l = n
            /\ Forall (fun c => In c (x :: a)) l.
Proof.
  revert k. induction n as [|n IH]; intro k.
  - exists []. repeat split. constructor.
  - destruct (IH (S k)) as [l [Hl [Hlen Hin]]].
    cbn [choices Numpy.choice]. rewrite Hl.
    eexists. split; [reflexivity|]. split; [cbn [length]; lia|].
    constructor; [|exact Hin].
    apply nth_In.
    pose proof (Z.mod_pos_bound (rng k) (Z.of_nat (length (x :: a)))
                                ltac:(cbn [length]; lia)).
    lia.
Qed.

Lemma count_na_ints (l : list Z) : count_na (map PyInt l) = 0.
Proof. unfold count_na. induction l; [reflexivity|assumption]. Qed.

Lemma five_columns_rectangular (a b c d e : list cell) :
  length a = 10 -> length b = 10 -> length c = 10 ->
  length d = 10 -> length e = 10 ->
  rectangular [("ID", a); ("Name", b); ("Age", c); ("Salary", d);
               ("Department", e)] = true.
Proof.
  intros H1 H2 H3 H4 H5. unfold rectangular, nrows.
  cbn [forallb snd]. rewrite H1, H2, H3, H4, H5. reflexivity.
Qed.

(** The frame of [create_dummy_csv], for every stream of draws. *)
Lemma dummy_frame_built (rng : nat -> Z) :
  exists (age salary : list Z) (department : list cell),
    dummy_frame rng
    = inl [("ID", map PyInt [1; 2; 3; 4; 5; 6; 7; 8; 9; 10]%Z);
           ("Name", map PyStr ["User_1"; "User_2"; "User_3"; "User_4";
                               "User_5"; "User_6"; "User_7"; "User_8";
                               "User_9"; "User_10"]);
           ("Age", map PyInt age);
           ("Salary", map PyInt salary);
           ("Department", department)]
    /\ (length age = 10 /\ Forall (fun v => (18 <= v < 60)%Z) age)
    /\ (length salary = 10
        /\ Forall (fun v => (30000 <= v < 100000)%Z) salary)
    /\ (length department = 10
        /\ Forall (fun c => In c [PyStr "HR"; PyStr "IT"; PyStr "Finance";
                                  PyNone]) department).
Proof.
  destruct (randint_ok rng 0 18 60 10 ltac:(lia)) as [age [Ha [Hla Hra]]].
  destruct (randint_ok rng 10 30000 100000 10 ltac:(lia))
    as [salary [Hs [Hls Hrs]]].
  destruct (choices_ok rng 10 20 (PyStr "HR")
                       [PyStr "IT"; PyStr "Finance"; PyNone])
    as [department [Hd [Hld Hrd]]].
  exists age, salary, department.
  split; [|repeat split; assumption].
  unfold dummy_frame. rewrite Ha, Hs, Hd.
  unfold ToCsv.DataFrame_of_dict.
  rewrite five_columns_rectangular;
    [reflexivity|reflexivity|reflexivity| | |exact Hld];
    rewrite length_map; assumption.
Qed.

(** X6. Whatever the random generator delivers, [create_dummy_csv] builds
    a frame of five columns and ten records: IDs 1 to 10, names User_1 to
    User_10, ages from 18 up to 59, salaries from 30000 up to 99999, and
    departments among HR, IT, Finance and [None].  Its absent cells are
    the [None] departments, so there are at most ten. *)
Theorem dummy_frame_shape (rng : nat -> Z) :
  exists (age salary : list Z) (department : list cell),
    dummy_frame rng
    = inl [("ID", map PyInt [1; 2; 3; 4; 5; 6; 7; 8; 9; 10]%Z);
           ("Name", map PyStr ["User_1"; "User_2"; "User_3"; "User_4";
                               "User_5"; "User_6"; "User_7"; "User_8";
                               "User_9"; "User_10"]);
           ("Age", map PyInt age);
           ("Salary", map PyInt salary);
           ("Department", department)]
    /\ length age = 10
    /\ Forall (fun v => (18 <= v < 60)%Z) age
    /\ length salary = 10
    /\ Forall (fun v => (30000 <= v < 100000)%Z) salary
    /\ length department = 10
    /\ Forall (fun c => In c [PyStr "HR"; PyStr "IT"; PyStr "Finance";
                              PyNone]) department
    /\ match dummy_frame rng with
       | inl d =>
           rectangular d = true
           /\ isnull_sum_sum d = length (filter isna department)
           /\ isnull_sum_sum d <= 10
       | inr _ => False
       end.
Proof.
  destruct (dummy_frame_built rng)
    as [age [salary [department
          [Hframe [[Hla Hra] [[Hls Hrs] [Hld Hrd]]]]]]].
  exists age, salary, department.
  rewrite Hframe.
  do 7 (split; [assumption || reflexivity|]).
  assert (Hcount :
    isnull_sum_sum
      [("ID", map PyInt [1; 2; 3; 4; 5; 6; 7; 8; 9; 10]%Z);
       ("Name", map PyStr ["User_1"; "User_2"; "User_3"; "User_4";
                           "User_5"; "User_6"; "User_7"; "User_8";
                           "User_9"; "User_10"]);
       ("Age", map PyInt age);
       ("Salary", map PyInt salary);
       ("Department", department)]
    = length (filter isna department)).
  { rewrite isnull_sum_sum_columns. cbn [map snd].
    rewrite !list_sum_cons, !count_na_ints.
    change (count_na (map PyInt [1; 2; 3; 4; 5; 6; 7; 8; 9; 10]%Z)) with 0.
    change (count_na (map PyStr ["User_1"; "User_2"; "User_3"; "User_4";
                                 "User_5"; "User_6"; "User_7"; "User_8";
                                 "User_9"; "User_10"])) with 0.
    unfold count_na. cbn [list_sum fold_right].
    rewrite !Nat.add_0_l, Nat.add_0_r. reflexivity. }
  split.
  - apply five_columns_rectangular;
      try reflexivity; try exact Hld; rewrite length_map; assumption.
  - split; [exact Hcount|]. rewrite Hcount, <- Hld. apply filter_length_le.
Qed.

(* ===================================================================== *)
(** ** Writing a frame and reading it back *)
(* ===================================================================== *)

Lemma pad_full (w : nat) (row : list string) :
  length row = w -> ReadCsv.pad w row = row.
Proof.
  intro H. unfold ReadCsv.pad. rewrite H, Nat.sub_diag. apply app_nil_r.
Qed.

Lemma nth_map_in_range {A B} (f : A -> B) (l : list A) (j : nat)
    (da : A) (db : B) :
  j < length l -> nth j (map f l) db = f (nth j l da).
Proof.
  intro H. rewrite (nth_indep _ db (f da)) by (rewrite length_map; exact H).
  apply map_nth.
Qed.

Lemma lines_rows_full (fr : spec_float -> string) (d : DataFrame) :
  Forall (fun row => length row = length (labels d))
         (map (fun i => map (fun c => ToCsv.field fr (nth i (snd c) NaN)) d)
              (seq 0 (nrows d))).
Proof.
  rewrite Forall_forall. intros row Hin.
  apply in_map_iff in Hin. destruct Hin as [i [<- _]].
  unfold labels. rewrite !length_map. reflexivity.
Qed.

(** A cell is missing exactly when the field written for it reads as
    missing, provided the text of a present cell is no NA token. *)
Lemma field_reads_as_cell (fr : spec_float -> string) (x : cell) :
  (isna x = false -> ReadCsv.is_na_token (ToCsv.field fr x) = false) ->
  match ReadCsv.na_filter (ToCsv.field fr x) with
  | None => true
  | Some _ => false
  end = isna x.
Proof.
  intro H. unfold ReadCsv.na_filter.
  destruct (isna x) eqn:Hx.
  - destruct x as [| | |f|]; try discriminate Hx; [reflexivity|].
    destruct f; try discriminate Hx. reflexivity.
  - rewrite (H eq_refl). reflexivity.
Qed.

(** The lines written for a frame load as the frame built from them. *)
Lemma lines_read (infer : list (option string) -> list cell)
    (fr : spec_float -> string) (d : DataFrame) :
  d <> [] ->
  ReadCsv.read_table infer (ToCsv.lines fr d)
  = inl (ReadCsv.frame_of infer (labels d)
           (map (fun i => map (fun c => ToCsv.field fr (nth i (snd c) NaN))
                              d)
                (seq 0 (nrows d)))).
Proof.
  intro Hd.
  set (rows := map (fun i => map (fun c => ToCsv.field fr (nth i (snd c) NaN))
                                 d)
                   (seq 0 (nrows d))).
  pose proof (lines_rows_full fr d) as Hfull. fold rows in Hfull.
  assert (Hlab : labels d <> []).
  { destruct d; [congruence|discriminate]. }
  assert (Hshort : Forall (fun row => length row <= length (labels d)) rows).
  { apply (Forall_impl _ (fun row (H : length row = length (labels d)) =>
                            Nat.eq_le_incl _ _ H) Hfull). }
  assert (Hnb : nonblank rows = rows).
  { unfold nonblank. apply forallb_filter_id. apply forallb_forall.
    intros row Hin. rewrite Forall_forall in Hfull.
    specialize (Hfull row Hin). destruct row; [|reflexivity].
    destruct (labels d); [congruence|discriminate Hfull]. }
  assert (Hpad : map (ReadCsv.pad (length (labels d))) rows = rows).
  { rewrite <- (map_id rows) at 2. apply map_ext_in. intros row Hin.
    rewrite Forall_forall in Hfull. apply pad_full, Hfull, Hin. }
  unfold ToCsv.lines. fold rows. unfold ReadCsv.read_table.
  rewrite read_lines_header by exact Hlab.
  rewrite tokenize_short by exact Hshort. rewrite Hnb, Hpad. reflexivity.
Qed.

(** That frame has the cells missing that the written one has, column by
    column. *)
Lemma isnull_lines_frame (infer : list (option string) -> list cell)
    (fr : spec_float -> string) (d : DataFrame) :
  keeps_absence infer ->
  rectangular d = true ->
  Forall (fun c =>
            Forall (fun x => isna x = false ->
                             ReadCsv.is_na_token (ToCsv.field fr x) = false)
                   (snd c)) d ->
  map snd (isnull (ReadCsv.frame_of infer (labels d)
                     (map (fun i =>
                             map (fun c => ToCsv.field fr (nth i (snd c) NaN))
                                 d)
                          (seq 0 (nrows d)))))
  = map snd (isnull d).
Proof.
  intros Hinfer Hrect Hcells.
  set (rows := map (fun i => map (fun c => ToCsv.field fr (nth i (snd c) NaN))
                                 d)
                   (seq 0 (nrows d))).
  pose proof (lines_rows_full fr d) as Hfull. fold rows in Hfull.
  assert (Hw : ReadCsv.width (labels d) rows = length (labels d)).
  { destruct Hfull as [|row rs Hrow _]; [reflexivity|exact Hrow]. }
  unfold isnull at 1, ReadCsv.frame_of.
  rewrite Hw, Nat.sub_diag, !map_map. cbn [fst snd Nat.add].
  assert (Hll : length (labels d) = length d)
    by (unfold labels; apply length_map).
  rewrite Hll.
  unfold isnull. rewrite map_map. cbn [snd].
  rewrite <- (map_nth_seq (fun c => map isna (snd c)) d (""%string, [])).
  apply map_ext_in. intros j Hj. apply in_seq in Hj.
  assert (Hjd : j < length d) by lia.
  rewrite Hinfer. unfold rows. rewrite !map_map.
  set (c := nth j d (""%string, [])).
  assert (Hc : In c d) by (apply nth_In; exact Hjd).
  assert (Hlen : length (snd c) = nrows d).
  { apply rectangular_Forall in Hrect.
    rewrite Forall_forall in Hrect. apply Hrect, Hc. }
  rewrite <- Hlen.
  rewrite <- (map_nth_seq isna (snd c) NaN).
  apply map_ext_in. intros i Hi. apply in_seq in Hi.
  rewrite (nth_map_in_range
             (fun c0 => ToCsv.field fr (nth i (snd c0) NaN))
             d j (""%string, []) "" Hjd).
  fold c. apply field_reads_as_cell.
  rewrite Forall_forall in Hcells. specialize (Hcells c Hc).
  rewrite Forall_forall in Hcells. apply Hcells.
  apply nth_In. lia.
Qed.


Lemma isnull_sum_sum_eq (d' d : DataFrame) :
  map snd (isnull d') = map snd (isnull d) ->
  isnull_sum_sum d' = isnull_sum_sum d.
Proof.
  intro H. rewrite !isnull_sum_sum_columns.
  unfold isnull in H. rewrite !map_map in H. cbn [snd] in H.
  revert d H. induction d' as [|c' d' IH]; intros [|c d] H;
    try discriminate; [reflexivity|].
  cbn [map] in *. injection H as H1 H2.
  rewrite !list_sum_cons, (IH d H2). f_equal.
  rewrite <- !count_true_isna, H1. reflexivity.
Qed.



(* ===================================================================== *)
(** ** Generating, then processing *)
(* ===================================================================== *)

Lemma numeral_not_na (t : string) :
  numeral t = true -> ReadCsv.is_na_token t = false.
Proof.
  intro Hnum. destruct (ReadCsv.is_na_token t) eqn:Hna; [|reflexivity].
  unfold ReadCsv.is_na_token in Hna. apply existsb_exists in Hna.
  destruct Hna as [v [Hin Heq]]. apply String.eqb_eq in Heq. subst v.
  assert (Hnone : forallb (fun v => negb (numeral v)) ReadCsv.na_values
                  = true) by reflexivity.
  rewrite forallb_forall in Hnone. specialize (Hnone t Hin).
  rewrite Hnum in Hnone. discriminate Hnone.
Qed.

Lemma numeral_string_of_uint (u : Decimal.uint) :
  u <> Decimal.Nil ->
  numeral (NilEmpty.string_of_uint u) = true
  /\ numeral (String "-" (NilEmpty.string_of_uint u)) = true.
Proof.
  intro Hu. pose proof (all_digits_string_of_uint u) as Hall.
  destruct u; try congruence; cbn in *; split; assumption.
Qed.

Lemma numeral_str_of_Z (z : Z) : numeral (ToCsv.str_of_Z z) = true.
Proof.
  unfold ToCsv.str_of_Z.
  destruct z as [|p|p]; cbn [Z.to_int NilEmpty.string_of_int].
  - reflexivity.
  - apply numeral_string_of_uint, DecimalPos.Unsigned.to_uint_nonnil.
  - apply numeral_string_of_uint, DecimalPos.Unsigned.to_uint_nonnil.
Qed.

Lemma ints_written_as_data (fr : spec_float -> string) (l : list Z) :
  Forall (fun x => isna x = false ->
                   ReadCsv.is_na_token (ToCsv.field fr x) = false)
         (map PyInt l).
Proof.
  rewrite Forall_forall. intros x Hin _.
  apply in_map_iff in Hin. destruct Hin as [z [<- _]].
  apply numeral_not_na, numeral_str_of_Z.
Qed.

(** The generated file reads back with the cells missing that the
    generator left missing. *)
Lemma dummy_file_reads_back (h : Host)
    (infer : list (option string) -> list cell) :
  keeps_absence infer ->
  exists d d',
    dummy_frame (rng h) = inl d
    /\ ReadCsv.read_table infer (ToCsv.lines (float_repr h) d) = inl d'
    /\ labels d' = labels d
    /\ isnull_sum_sum d' = isnull_sum_sum d.
Proof.
  intro Hinfer.
  destruct (dummy_frame_built (rng h))
    as [age [salary [department
          [Hframe [[Hla _] [[Hls _] [Hld Hdep]]]]]]].
  revert Hframe.
  set (d := [("ID", map PyInt [1; 2; 3; 4; 5; 6; 7; 8; 9; 10]%Z);
             ("Name", map PyStr ["User_1"; "User_2"; "User_3"; "User_4";
                                 "User_5"; "User_6"; "User_7"; "User_8";
                                 "User_9"; "User_10"]);
             ("Age", map PyInt age);
             ("Salary", map PyInt salary);
             ("Department", department)]).
  intro Hframe.
  assert (Hrect : rectangular d = true).
  { apply five_columns_rectangular;
      try reflexivity; try exact Hld; rewrite length_map; assumption. }
  assert (Hcells :
    Forall (fun c : string * list cell =>
              Forall (fun x => isna x = false ->
                               ReadCsv.is_na_token
                                 (ToCsv.field (float_repr h) x) = false)
                     (snd c)) d).
  { apply Forall_cons; [apply ints_written_as_data|].
    apply Forall_cons.
    { cbn [snd map].
      repeat (apply Forall_cons; [intros _; reflexivity|]).
      apply Forall_nil. }
    apply Forall_cons; [apply ints_written_as_data|].
    apply Forall_cons; [apply ints_written_as_data|].
    apply Forall_cons; [|apply Forall_nil].
    cbn [snd]. rewrite Forall_forall in Hdep. rewrite Forall_forall.
    intros c Hc Hna. specialize (Hdep c Hc). cbn [In] in Hdep.
    destruct Hdep as [<-|[<-|[<-|[<-|[]]]]];
      reflexivity || discriminate Hna. }
  pose proof (isnull_lines_frame infer (float_repr h) d Hinfer Hrect Hcells)
    as Hnull.
  exists d. eexists.
  split; [exact Hframe|]. split; [apply lines_read; discriminate|].
  split; [|apply isnull_sum_sum_eq, Hnull].
  rewrite (proj1 (frame_of_columns infer Hinfer _ _)).
  apply column_names_kept.
  - unfold d, labels. cbn [map fst].
    repeat (apply NoDup_cons;
            [cbn [In]; intros H;
             repeat (destruct H as [H|H]; [discriminate H|]); exact H|]).
    apply NoDup_nil.
  - unfold d, labels. cbn [map fst In]. intros H.
    repeat (destruct H as [H|H]; [discriminate H|]). exact H.
Qed.

(** X8. When the file can be written and the two pandas calls of
    [process_csv] meet no fault on the frame loaded from it, the entry
    code of either script generates [data.csv] and processes it to the
    end: it returns [None], never logs an ERROR, and logs, in this order,
    the creation record, the start record, the WARNING record with the
    number of [None] departments drawn when there is one, and the
    completion record.  The file is left as generated, and the frame left
    in [df] has the generated labels and no absent cell.  Nothing is asked
    of the pandas calls on other frames. *)
Theorem main_generates_then_processes (sc : script) (h : Host) (w : World)
    (s : state) :
  (forall d, dummy_frame (rng h) = inl d ->
             to_csv_fault h "data.csv" (ToCsv.lines (float_repr h) d)
             = None) ->
  keeps_absence (infer_dtype w) ->
  (forall d d', dummy_frame (rng h) = inl d ->
                ReadCsv.read_table (infer_dtype w)
                                   (ToCsv.lines (float_repr h) d) = inl d' ->
                isnull_sum_fault w d' = None /\ fillna_fault w d' = None) ->
  exists d w' s',
    dummy_frame (rng h) = inl d
    /\ main sc h (w, s) = (inl PyNone, (w', s'))
    /\ open_csv w' "data.csv" = inl (ToCsv.lines (float_repr h) d)
    /\ sink s'
       = sink s
         ++ [created_record "data.csv"; start_record sc "data.csv"]
         ++ (if Nat.ltb 0 (isnull_sum_sum d)
             then [warning_record sc "data.csv" (isnull_sum_sum d)]
             else [])
         ++ [done_record (float_sub (clock w (S (clock_reads s)))
                                    (clock w (clock_reads s)))]
    /\ exists d'', df s' = Some d''
                   /\ labels d'' = labels d
                   /\ isnull_sum_sum d'' = 0.
Proof.
  intros Hwrite Hinfer Hfaults.
  destruct (dummy_file_reads_back h (infer_dtype w) Hinfer)
    as [d [d' [Hframe [Hread [Hlab Hn]]]]].
  destruct (Hfaults d d' Hframe Hread) as [Hcount Hfill].
  specialize (Hwrite d Hframe).
  set (w' := with_file w "data.csv" (ToCsv.lines (float_repr h) d)).
  set (s1 := snd (logging_info (message (created_record "data.csv")) s)).
  assert (Hpd : pd_read_csv w' "data.csv" = inl d').
  { unfold pd_read_csv, w'. cbn [open_csv with_file infer_dtype].
    rewrite String.eqb_refl. exact Hread. }
  exists d, w', (run_of sc w' "data.csv" s1).
  split; [exact Hframe|]. split.
  { unfold main, create_dummy_csv. rewrite Hframe, Hwrite.
    cbn [fst snd]. fold w' s1. rewrite process_csv_run. reflexivity. }
  split; [unfold w'; cbn [open_csv with_file];
          rewrite String.eqb_refl; reflexivity|].
  unfold run_of. rewrite Hpd.
  change (isnull_sum_fault w' d') with (isnull_sum_fault w d').
  change (fillna_fault w' d') with (fillna_fault w d').
  rewrite Hcount, Hfill, Hn. cbn [sink df]. split.
  - unfold s1, logging_info, log_call, handle.
    cbn [snd sink clock_reads levelname levelno root_level Nat.leb
         created_record].
    rewrite <- !app_assoc. reflexivity.
  - exists (fillna (PyStr "UNKNOWN") d').
    split; [reflexivity|]. split.
    + rewrite labels_fillna. exact Hlab.
    + apply isnull_sum_sum_filled. reflexivity.
Qed.

(** X9. The generator catches nothing: when writing the generated frame
    to [data.csv] fails, the fault leaves the entry code as it was raised;
    nothing has been logged and [process_csv] has not run.  When the path
    could not be opened the files are as they were; when the fault came
    after that, [data.csv] holds the lines that reached it, whatever it
    held before. *)
Theorem main_lets_write_fault_through (sc : script) (h : Host) (w : World)
    (s : state) (d : DataFrame) (e : exn) (left : option ReadCsv.table) :
  dummy_frame (rng h) = inl d ->
  to_csv_fault h "data.csv" (ToCsv.lines (float_repr h) d)
  = Some (e, left) ->
  main sc h (w, s)
  = (inr e,
     (match left with
      | None => w
      | Some written => with_file w "data.csv" written
      end, s)).
Proof.
  intros Hframe Hwrite.
  unfold main, create_dummy_csv. rewrite Hframe, Hwrite.
  destruct left as [written|]; reflexivity.
Qed.

Lemma main_generates_then_processes_witness :
  keeps_absence (infer_dtype Pandas3.world)
  /\ fillna_fault Pandas3.world
       [("ID", [PyInt 1; PyInt 2]);
        ("Age", [PyFloat (Pandas3.float_of_Z 30); NaN])]
     = Some Pandas3.TypeError
  /\ exists d w' s',
       dummy_frame (rng ExampleHost.host) = inl d
       /\ main csv_log_processor ExampleHost.host
               (Pandas3.world, Example.fresh)
          = (inl PyNone, (w', s'))
       /\ sink s'
          = sink Example.fresh
            ++ [created_record "data.csv";
                start_record csv_log_processor "data.csv"]
            ++ (if Nat.ltb 0 (isnull_sum_sum d)
                then [warning_record csv_log_processor "data.csv"
                        (isnull_sum_sum d)]
                else [])
            ++ [done_record
                  (float_sub
                     (clock Pandas3.world (S (clock_reads Example.fresh)))
                     (clock Pandas3.world (clock_reads Example.fresh)))].
Proof.
  split; [exact pandas3_infer_keeps_absence|]. split; [reflexivity|].
  assert (Hfaults :
    forall d d', dummy_frame (rng ExampleHost.host) = inl d ->
                 ReadCsv.read_table (infer_dtype Pandas3.world)
                   (ToCsv.lines (float_repr ExampleHost.host) d) = inl d' ->
                 isnull_sum_fault Pandas3.world d' = None
                 /\ fillna_fault Pandas3.world d' = None).
  { intros d d' Hd Hd'. vm_compute in Hd. injection Hd as <-.
    vm_compute in Hd'. injection Hd' as <-. split; reflexivity. }
  destruct (main_generates_then_processes csv_log_processor
              ExampleHost.host Pandas3.world Example.fresh
              (fun _ _ => eq_refl) pandas3_infer_keeps_absence Hfaults)
    as [d [w' [s' [Hd [Hmain [_ [Hsink _]]]]]]].
  exists d, w', s'. split; [exact Hd|]. split; [exact Hmain|exact Hsink].
Defined.

Lemma main_lets_write_fault_through_witness :
  main logcsvfile ExampleHost.read_only (Example.world, Example.fresh)
  = (inr (ExampleHost.PermissionError "data.csv"),
     (Example.world, Example.fresh))
  /\ main logcsvfile ExampleHost.full_disk (Example.world, Example.fresh)
     = (inr ExampleHost.NoSpace,
        (with_file Example.world "data.csv"
           [["ID"; "Name"; "Age"; "Salary"; "Department"]],
         Example.fresh)).
Proof.
  split.
  - exact (main_lets_write_fault_through logcsvfile ExampleHost.read_only
             Example.world Example.fresh ExampleHost.drawn
             (ExampleHost.PermissionError "data.csv") None
             eq_refl eq_refl).
  - exact (main_lets_write_fault_through logcsvfile ExampleHost.full_disk
             Example.world Example.fresh ExampleHost.drawn
             ExampleHost.NoSpace
             (Some [["ID"; "Name"; "Age"; "Salary"; "Department"]])
             eq_refl eq_refl).
Defined.

(** One run of the entry code, on the example stream. *)
Example main_on_example_stream :
  sink (snd (snd (main logcsvfile ExampleHost.host
                       (Example.world, Example.fresh))))
  = [ {| levelname := INFO;
         message := "Dummy CSV file 'data.csv' created successfully.";
         exc_info := None |};
      {| levelname := INFO;
         message := "Starting processing for data.csv";
         exc_info := None |};
      {| levelname := WARNING;
         message := "File data.csv contains 3 missing values";
         exc_info := None |};
      {| levelname := INFO;
         message := "Processing completed in 1.25 seconds";
         exc_info := None |} ].
Proof. vm_compute. reflexivity. Qed.

(* ===================================================================== *)
(** ** The Flask views *)
(* ===================================================================== *)

(** X10. Whatever views are called, in whatever order, each call appends
    one record to the log and nothing else changes it: the earlier records
    stay, the records added and the responses are in the order of the
    calls, a response has status 500 exactly when its record is an ERROR
    one, and status 200 exactly when it is an INFO one. *)
Theorem views_log_one_record_per_call (vs : list Flask.view)
    (sink0 : list LogRecord) :
  exists added : list LogRecord,
    snd (Flask.serve vs sink0) = sink0 ++ added
    /\ length added = length vs
    /\ length (fst (Flask.serve vs sink0)) = length vs
    /\ map (fun r => Nat.eqb (snd r) 500) (fst (Flask.serve vs sink0))
       = map (has_level ERROR) added
    /\ map (fun r => Nat.eqb (snd r) 200) (fst (Flask.serve vs sink0))
       = map (has_level INFO) added
    /\ Forall (fun r => snd r = 200 \/ snd r = 500)
              (fst (Flask.serve vs sink0)).
Proof.
  revert sink0. induction vs as [|v vs IH]; intro sink0.
  - exists []. cbn. rewrite app_nil_r. repeat split. constructor.
  - cbn [Flask.serve].
    destruct (Flask.call v sink0) as [r sink1] eqn:Hcall.
    destruct (IH sink1) as [added [Hs [Hl [Hr [H500 [H200 Hst]]]]]].
    destruct (Flask.serve vs sink1) as [rs sink2].
    cbn [fst snd] in *.
    assert (Hcase :
      exists rec, sink1 = sink0 ++ [rec]
                  /\ Nat.eqb (snd (Flask.make_response r)) 500
                     = has_level ERROR rec
                  /\ Nat.eqb (snd (Flask.make_response r)) 200
                     = has_level INFO rec
                  /\ (snd (Flask.make_response r) = 200
                      \/ snd (Flask.make_response r) = 500)).
    { destruct v; cbn [Flask.call Flask.home Flask.error] in Hcall;
        injection Hcall as <- <-; eexists;
        (split; [reflexivity|]); repeat split; auto. }
    destruct Hcase as [rec [-> [Hrec500 [Hrec200 Hrecst]]]].
    exists (rec :: added).
    split; [rewrite Hs, <- app_assoc; reflexivity|].
    cbn [length map]. rewrite Hl, Hr, H500, H200, Hrec500, Hrec200.
    repeat split. constructor; assumption.
Qed.
